(** * RFID scanner back end: the polling loop of [backend/read.cpp]

    A shallow embedding of [main] and [delay] of [backend/read.cpp]:
    the reader is polled, the UID of a detected card is rendered in
    hexadecimal, and the [users] table is queried and then updated or
    extended.  The reader, the clock of the database server and the
    failures of the MySQL driver are inputs of each iteration; standard
    output, standard error, the statements sent to the server and the
    sleeps are recorded as a trace of events. *)

From Stdlib Require Import ZArith NArith List String Ascii Bool Lia.
From Stdlib Require Import Init.Byte Strings.Byte.
Import ListNotations.

Local Open Scope string_scope.
Local Open Scope Z_scope.

(** ** Machine integers *)

(** [int] is a 32-bit two's complement integer.  Signed overflow is left
    undefined by C++; the targets of this program wrap, and so does the
    model. *)
Definition INT_MAX : Z := 2147483647.
Definition INT_MIN : Z := -2147483648.

Definition int_wrap (z : Z) : Z := (z + 2147483648) mod 4294967296 - 2147483648.

Definition int_add (a b : Z) : Z := int_wrap (a + b).
Definition int_mul (a b : Z) : Z := int_wrap (a * b).

(** [a % b] of C++ truncates towards zero. *)
Definition int_rem (a b : Z) : Z := Z.rem a b.

(** [byte] is [uint8_t]; [++i] on a [byte] wraps at 256. *)
Definition byte_wrap (n : N) : N := (n mod 256)%N.

(** ** Output streams: the part of [std::stringstream] used by [main] *)

Module Stream.

Record stringstream : Type := mkStream {
  str : string;          (* the characters written so far *)
  width : nat;           (* field width of the next insertion *)
  fill : ascii;          (* fill character *)
  hex : bool;            (* basefield: [true] is hex, [false] is dec *)
  uppercase : bool       (* the uppercase flag *)
}.

Definition init : stringstream :=
  {| str := ""; width := 0; fill := " "%char; hex := false; uppercase := false |}.

Definition std_hex (ss : stringstream) : stringstream :=
  {| str := str ss; width := width ss; fill := fill ss; hex := true;
     uppercase := uppercase ss |}.

Definition std_uppercase (ss : stringstream) : stringstream :=
  {| str := str ss; width := width ss; fill := fill ss; hex := hex ss;
     uppercase := true |}.

Definition setw (n : nat) (ss : stringstream) : stringstream :=
  {| str := str ss; width := n; fill := fill ss; hex := hex ss;
     uppercase := uppercase ss |}.

Definition setfill (c : ascii) (ss : stringstream) : stringstream :=
  {| str := str ss; width := width ss; fill := c; hex := hex ss;
     uppercase := uppercase ss |}.

Fixpoint repeat_char (c : ascii) (n : nat) : string :=
  match n with
  | O => ""
  | S n' => String c (repeat_char c n')
  end.

(** Right adjustment, the default: the fill goes in front. *)
Definition pad (w : nat) (c : ascii) (s : string) : string :=
  repeat_char c (w - String.length s) ++ s.

Definition digit_char (upper : bool) (d : N) : ascii :=
  match String.get (N.to_nat d)
          (if upper then "0123456789ABCDEF" else "0123456789abcdef") with
  | Some c => c
  | None => "?"%char
  end.

(** The digits of [n] in base [base], most significant first. *)
Fixpoint digits (fuel : nat) (base : N) (upper : bool) (n : N) (acc : string)
  : string :=
  match fuel with
  | O => acc
  | S fuel' =>
      let acc' := String (digit_char upper (n mod base)) acc in
      if (n / base =? 0)%N then acc'
      else digits fuel' base upper (n / base) acc'
  end.

(** The text of an [int]: in hex the 32-bit pattern is printed as an
    unsigned number, in dec a negative number gets a minus sign. *)
Definition int_text (hexa upper : bool) (v : Z) : string :=
  if hexa then digits 32 16 upper (Z.to_N (v mod 4294967296)) ""
  else if v <? 0 then String "-"%char (digits 32 10 upper (Z.to_N (- v)) "")
       else digits 32 10 upper (Z.to_N v) "".

(** A formatted insertion pads to the field width and resets it to 0. *)
Definition insert (text : string) (ss : stringstream) : stringstream :=
  {| str := str ss ++ pad (width ss) (fill ss) text; width := 0;
     fill := fill ss; hex := hex ss; uppercase := uppercase ss |}.

(** [ss << s] for a string. *)
Definition put_string (s : string) (ss : stringstream) : stringstream :=
  insert s ss.

(** [ss << n] for an [int]. *)
Definition put_int (v : Z) (ss : stringstream) : stringstream :=
  insert (int_text (hex ss) (uppercase ss) v) ss.

End Stream.

(** ** The reader: the part of [MFRC522] used by [main] *)

(** [MFRC522::Uid]: [size] bytes of [uidByte] are the UID of the card
    read last. *)
Record Uid : Type := mkUid {
  size : byte;
  uidByte : list byte
}.

(** [mfrc.uid.uidByte[i]]; a read past the array, undefined in C++, is
    given the value 0 here. *)
Definition uidByte_at (u : Uid) (i : N) : byte :=
  nth (N.to_nat i) (uidByte u) x00.

(** The body of the [for] loop of lines 67-71. *)
Definition uid_loop_body (u : Uid) (i : N) (ss : Stream.stringstream)
  : Stream.stringstream :=
  let ss := if (0 <? i)%N then Stream.put_string "" ss else ss in
  Stream.put_int (Z.of_N (Byte.to_N (uidByte_at u i)))
    (Stream.setfill "0"%char
       (Stream.setw 2 (Stream.std_uppercase (Stream.std_hex ss)))).

(** [for (byte i = ...; i < mfrc.uid.size; ++i)]. *)
Fixpoint uid_loop (fuel : nat) (u : Uid) (i : N) (ss : Stream.stringstream)
  : Stream.stringstream :=
  match fuel with
  | O => ss
  | S fuel' =>
      if (i <? Byte.to_N (size u))%N
      then uid_loop fuel' u (byte_wrap (i + 1)) (uid_loop_body u i ss)
      else ss
  end.

(** [uidStr] of line 73.  A [byte] counter below a [byte] bound leaves
    the loop within 256 steps. *)
Definition uidStr_of (u : Uid) : string :=
  Stream.str (uid_loop 256 u 0 Stream.init).

(** The rendering the specification describes: two uppercase hexadecimal
    digits per byte, the high one first. *)
Definition hex_digit (d : N) : ascii :=
  match d with
  | 0%N => "0" | 1%N => "1" | 2%N => "2" | 3%N => "3"
  | 4%N => "4" | 5%N => "5" | 6%N => "6" | 7%N => "7"
  | 8%N => "8" | 9%N => "9" | 10%N => "A" | 11%N => "B"
  | 12%N => "C" | 13%N => "D" | 14%N => "E" | _ => "F"
  end%char.

Definition byte_hex (b : byte) : string :=
  String (hex_digit (Byte.to_N b / 16)) (String (hex_digit (Byte.to_N b mod 16)) "").

Definition is_upper_hex (c : ascii) : bool :=
  existsb (Ascii.eqb c) (list_ascii_of_string "0123456789ABCDEF").

Fixpoint concat_strings (l : list string) : string :=
  match l with
  | [] => ""
  | s :: l' => s ++ concat_strings l'
  end.

(** The bytes [uidByte[0]], ..., [uidByte[size - 1]]. *)
Definition uid_bytes (u : Uid) : list byte :=
  map (fun i => uidByte_at u (N.of_nat i)) (seq 0 (N.to_nat (Byte.to_N (size u)))).

(** ** The database: the [users] table of [rfid_database] *)

(** A row of [users], with the columns the program names.  [username]
    and [last_scan_time] may be NULL ([None]). *)
Record row : Type := mkRow {
  UID : string;
  tap_count : Z;
  username : option string;
  last_scan_time : option Z
}.

(** The table in the order in which a [SELECT] returns its rows, and the
    value the schema gives [username] when an [INSERT] leaves it out. *)
Record database : Type := mkDatabase {
  users : list row;
  username_default : option string
}.

(** The three statements [main] prepares. *)
Inductive statement : Type :=
| SELECT_users
| UPDATE_users
| INSERT_users.

Definition sql (q : statement) : string :=
  match q with
  | SELECT_users => "SELECT UID, tap_count, username FROM users WHERE UID = ?"
  | UPDATE_users => "UPDATE users SET tap_count = ?, last_scan_time = NOW() WHERE UID = ?"
  | INSERT_users => "INSERT INTO users (UID, tap_count, last_scan_time) VALUES (?, 1, NOW())"
  end.

Inductive param : Type :=
| PString (s : string)
| PInt (n : Z).

(** [sql::PreparedStatement]: the statement and the parameters bound so
    far, the latest binding of an index first. *)
Record PreparedStatement : Type := mkPrepared {
  query : statement;
  params : list (nat * param)
}.

Fixpoint param_at (l : list (nat * param)) (i : nat) : option param :=
  match l with
  | [] => None
  | (j, p) :: l' => if Nat.eqb j i then Some p else param_at l' i
  end.

(** [SELECT ... WHERE UID = ?]: the rows whose [UID] is the parameter,
    character for character. *)
Definition select_users (d : database) (uid : string) : list row :=
  filter (fun r => String.eqb (UID r) uid) (users d).

(** [UPDATE users SET tap_count = ?, last_scan_time = NOW() WHERE UID = ?]. *)
Definition update_users (d : database) (n : Z) (uid : string) (now : Z) : database :=
  {| users :=
       map (fun r =>
              if String.eqb (UID r) uid
              then {| UID := UID r; tap_count := n; username := username r;
                      last_scan_time := Some now |}
              else r) (users d);
     username_default := username_default d |}.

(** [INSERT INTO users (UID, tap_count, last_scan_time) VALUES (?, 1, NOW())]. *)
Definition insert_users (d : database) (uid : string) (now : Z) : database :=
  {| users :=
       (users d ++ [ {| UID := uid; tap_count := 1; username := username_default d;
                       last_scan_time := Some now |} ])%list;
     username_default := username_default d |}.

(** [sql::ResultSet]: the rows not yet fetched and the current row. *)
Record ResultSet : Type := mkResultSet {
  pending : list row;
  current : option row
}.

(** ** Events, inputs and the monad of [main] *)

Inductive event : Type :=
| ev_PCD_Init
| ev_connect (hostName userName password : string)
| ev_setSchema (catalog : string)
| ev_IsNewCardPresent (r : bool)
| ev_ReadCardSerial (r : bool)
| ev_cout (line : string)
| ev_cerr (line : string)
| ev_executeQuery (q : statement) (args : list (nat * param))
| ev_executeUpdate (q : statement) (args : list (nat * param))
| ev_Sleep (ms : Z)
| ev_usleep (us : Z).

(** The driver calls inside the [try] block, by statement. *)
Inductive call : Type :=
| select_prepareStatement | select_setString | select_executeQuery
| res_next | res_getString | res_getInt
| update_prepareStatement | update_setInt | update_setString | update_executeUpdate
| insert_prepareStatement | insert_setString | insert_executeUpdate.

(** What one iteration of the loop gets from outside: the answers of the
    reader, the time [NOW()] of the server, and for each driver call
    whether it raises [sql::SQLException] (with the text of [what()]).
    A call that raises has no effect on the table. *)
Record env : Type := mkEnv {
  card_present : bool;
  card_serial : option Uid;
  NOW : Z;
  throws : call -> option string
}.

Record SQLException : Type := mkSQLException { what : string }.

(** The state [main] works on: the [uid] field of the reader object and
    the database behind the connection. *)
Record state : Type := mkState {
  mfrc_uid : Uid;
  db : database
}.

Inductive result (A : Type) : Type :=
| Ok (a : A)
| Throw (e : SQLException).

Arguments Ok {A} a.
Arguments Throw {A} e.

(** A computation returns or throws, changes the state, and leaves the
    events it produced, in order. *)
Definition M (A : Type) : Type := state -> result A * state * list event.

Definition ret {A : Type} (a : A) : M A := fun s => (Ok a, s, []).

Definition bind {A B : Type} (m : M A) (k : A -> M B) : M B :=
  fun s =>
    match m s with
    | (Ok a, s1, t1) =>
        match k a s1 with
        | (r, s2, t2) => (r, s2, (t1 ++ t2)%list)
        end
    | (Throw e, s1, t1) => (Throw e, s1, t1)
    end.

Definition throw {A : Type} (e : SQLException) : M A := fun s => (Throw e, s, []).

(** [try { m } catch (sql::SQLException &e) { h e }]. *)
Definition try_catch {A : Type} (m : M A) (h : SQLException -> M A) : M A :=
  fun s =>
    match m s with
    | (Ok a, s1, t1) => (Ok a, s1, t1)
    | (Throw e, s1, t1) =>
        match h e s1 with
        | (r, s2, t2) => (r, s2, (t1 ++ t2)%list)
        end
    end.

Definition emit (ev : event) : M unit := fun s => (Ok tt, s, [ev]).

Definition get_state : M state := fun s => (Ok s, s, []).
Definition put_state (s' : state) : M unit := fun _ => (Ok tt, s', []).

Declare Scope prog_scope.
Delimit Scope prog_scope with prog.
Notation "x <- m ;; k" := (bind m (fun x => k))
  (at level 61, m at next level, right associativity) : prog_scope.
Notation "m ;; k" := (bind m (fun _ => k))
  (at level 61, right associativity) : prog_scope.
Local Open Scope prog_scope.

(** ** The reader and driver calls *)

Definition cout (line : string) : M unit := emit (ev_cout line).
Definition cerr (line : string) : M unit := emit (ev_cerr line).

Definition PICC_IsNewCardPresent (e : env) : M bool :=
  emit (ev_IsNewCardPresent (card_present e)) ;; ret (card_present e).

(** A successful read stores the UID in [mfrc.uid]. *)
Definition PICC_ReadCardSerial (e : env) : M bool :=
  match card_serial e with
  | Some u =>
      emit (ev_ReadCardSerial true) ;;
      s <- get_state ;;
      put_state {| mfrc_uid := u; db := db s |} ;;
      ret true
  | None => emit (ev_ReadCardSerial false) ;; ret false
  end.

(** Every driver call may raise. *)
Definition driver (e : env) (c : call) : M unit :=
  match throws e c with
  | Some msg => throw (mkSQLException msg)
  | None => ret tt
  end.

Definition prepareStatement (e : env) (c : call) (q : statement) : M PreparedStatement :=
  driver e c ;; ret {| query := q; params := [] |}.

Definition setString (e : env) (c : call) (i : nat) (v : string) (p : PreparedStatement)
  : M PreparedStatement :=
  driver e c ;; ret {| query := query p; params := (i, PString v) :: params p |}.

Definition setInt (e : env) (c : call) (i : nat) (v : Z) (p : PreparedStatement)
  : M PreparedStatement :=
  driver e c ;; ret {| query := query p; params := (i, PInt v) :: params p |}.

(** A statement run with the wrong entry point or with a parameter
    unbound or of the wrong type is refused by the driver. *)
Definition refused {A : Type} : M A :=
  throw (mkSQLException "statement refused").

Definition executeQuery (e : env) (c : call) (p : PreparedStatement) : M ResultSet :=
  emit (ev_executeQuery (query p) (params p)) ;;
  driver e c ;;
  s <- get_state ;;
  match query p, param_at (params p) 1 with
  | SELECT_users, Some (PString uid) =>
      ret {| pending := select_users (db s) uid; current := None |}
  | _, _ => refused
  end.

Definition executeUpdate (e : env) (c : call) (p : PreparedStatement) : M unit :=
  emit (ev_executeUpdate (query p) (params p)) ;;
  driver e c ;;
  s <- get_state ;;
  match query p with
  | UPDATE_users =>
      match param_at (params p) 1, param_at (params p) 2 with
      | Some (PInt n), Some (PString uid) =>
          put_state {| mfrc_uid := mfrc_uid s; db := update_users (db s) n uid (NOW e) |}
      | _, _ => refused
      end
  | INSERT_users =>
      match param_at (params p) 1 with
      | Some (PString uid) =>
          put_state {| mfrc_uid := mfrc_uid s; db := insert_users (db s) uid (NOW e) |}
      | _ => refused
      end
  | SELECT_users => refused
  end.

(** [res->next()]: moves to the next row, [false] when there is none. *)
Definition next (e : env) (c : call) (r : ResultSet) : M (bool * ResultSet) :=
  driver e c ;;
  match pending r with
  | [] => ret (false, {| pending := []; current := None |})
  | x :: rest => ret (true, {| pending := rest; current := Some x |})
  end.

(** [res->getString(label)] on the string columns of the query; NULL is
    returned as the empty string. *)
Definition getString (e : env) (c : call) (r : ResultSet) (label : string) : M string :=
  driver e c ;;
  match current r with
  | Some x =>
      if String.eqb label "username" then
        ret match username x with Some n => n | None => "" end
      else if String.eqb label "UID" then ret (UID x)
      else refused
  | None => refused
  end.

(** [res->getInt(label)] on the integer column of the query; the driver
    converts the value to [int32_t]. *)
Definition getInt (e : env) (c : call) (r : ResultSet) (label : string) : M Z :=
  driver e c ;;
  match current r with
  | Some x =>
      if String.eqb label "tap_count" then ret (int_wrap (tap_count x))
      else refused
  | None => refused
  end.

(** ** [delay] and [main] *)

(** [delay(ms)]: [Sleep(ms)] under [WIN32], [usleep(ms * 1000)] otherwise. *)
Definition delay (WIN32 : bool) (ms : Z) : M unit :=
  if WIN32 then emit (ev_Sleep ms) else emit (ev_usleep (int_mul ms 1000)).

(** Lines 77-102: the body of the [try] block. *)
Definition try_block (e : env) (uidStr : string) : M unit :=
  pstmt <- prepareStatement e select_prepareStatement SELECT_users ;;
  pstmt <- setString e select_setString 1 uidStr pstmt ;;
  res <- executeQuery e select_executeQuery pstmt ;;
  found <- next e res_next res ;;
  if fst found then
    username <- getString e res_getString (snd found) "username" ;;
    n <- getInt e res_getInt (snd found) "tap_count" ;;
    let tapCount := int_add n 1 in
    updatePstmt <- prepareStatement e update_prepareStatement UPDATE_users ;;
    updatePstmt <- setInt e update_setInt 1 tapCount updatePstmt ;;
    updatePstmt <- setString e update_setString 2 uidStr updatePstmt ;;
    executeUpdate e update_executeUpdate updatePstmt ;;
    if int_rem tapCount 2 =? 0
    then cout ("Goodbye " ++ username)
    else cout ("Hello " ++ username)
  else
    pstmt <- prepareStatement e insert_prepareStatement INSERT_users ;;
    pstmt <- setString e insert_setString 1 uidStr pstmt ;;
    executeUpdate e insert_executeUpdate pstmt ;;
    cout "UID inserted into database.".

(** Line 63: [!mfrc.PICC_IsNewCardPresent() || !mfrc.PICC_ReadCardSerial()]. *)
Definition no_card (e : env) : M bool :=
  present <- PICC_IsNewCardPresent e ;;
  if negb present then ret true
  else (serial <- PICC_ReadCardSerial e ;; ret (negb serial)).

(** Lines 63-107: the body of the [while] loop. *)
Definition loop_body (WIN32 : bool) (e : env) : M unit :=
  skip <- no_card e ;;
  if skip then ret tt  (* continue *)
  else
    s <- get_state ;;
    let uidStr := uidStr_of (mfrc_uid s) in
    cout ("UID: " ++ uidStr) ;;
    try_catch (try_block e uidStr)
      (fun ex => cerr ("SQL Exception: " ++ what ex)) ;;
    delay WIN32 1000.

(** How a loop stands once the inputs given to it are used up. *)
Inductive progress : Type :=
| Looping     (* the condition held every time; the loop goes on *)
| Left.       (* the condition was false; the loop was left *)

(** [while (cond) body], one input per iteration; an exception of the
    body ends the loop and goes to the caller. *)
Fixpoint while (cond : Z) (body : env -> M unit) (envs : list env) : M progress :=
  if cond =? 0 then ret Left
  else
    match envs with
    | [] => ret Looping
    | e :: envs' => body e ;; while cond body envs'
    end.

(** What the start of [main] gets from outside: whether [connect] and
    [setSchema] raise. *)
Record boot : Type := mkBoot {
  connect_throws : option string;
  setSchema_throws : option string
}.

Definition connect (b : boot) (hostName userName password : string) : M unit :=
  emit (ev_connect hostName userName password) ;;
  match connect_throws b with
  | Some msg => throw (mkSQLException msg)
  | None => ret tt
  end.

Definition setSchema (b : boot) (catalog : string) : M unit :=
  emit (ev_setSchema catalog) ;;
  match setSchema_throws b with
  | Some msg => throw (mkSQLException msg)
  | None => ret tt
  end.

(** [main]: [Ok (Some c)] is [return c], [Ok None] is a run still in the
    loop, [Throw] an exception nobody caught. *)
Definition main (WIN32 : bool) (b : boot) (envs : list env) : M (option Z) :=
  emit ev_PCD_Init ;;
  connect b "tcp://127.0.0.1:3307" "root" "root" ;;
  setSchema b "rfid_database" ;;
  p <- while 1 (loop_body WIN32) envs ;;
  match p with
  | Left => ret (Some 0)
  | Looping => ret None
  end.

(** ** Reading a trace *)

Definition stdout (t : list event) : list string :=
  flat_map (fun ev => match ev with ev_cout l => [l] | _ => [] end) t.

Definition stderr (t : list event) : list string :=
  flat_map (fun ev => match ev with ev_cerr l => [l] | _ => [] end) t.

Definition is_connect (ev : event) : bool :=
  match ev with ev_connect _ _ _ => true | _ => false end.

Definition is_poll (ev : event) : bool :=
  match ev with ev_IsNewCardPresent _ => true | _ => false end.

Definition is_select (ev : event) : bool :=
  match ev with ev_executeQuery _ _ => true | _ => false end.

(** The milliseconds an event sleeps, if it is a sleep. *)
Definition slept (ev : event) : option Z :=
  match ev with
  | ev_Sleep ms => Some ms
  | ev_usleep us => Some (us / 1000)
  | _ => None
  end.

Definition is_sleep (ev : event) : bool :=
  match slept ev with Some _ => true | None => false end.

Fixpoint starts_with (p s : string) : bool :=
  match p with
  | "" => true
  | String a p' =>
      match s with
      | "" => false
      | String b s' => Ascii.eqb a b && starts_with p' s'
      end
  end.

Definition is_greeting (line : string) : bool :=
  starts_with "Hello " line || starts_with "Goodbye " line.

(** The first row a [SELECT] by [uid] returns. *)
Definition lookup (d : database) (uid : string) : option row :=
  hd_error (select_users d uid).

(** The run of one iteration. *)
Definition iteration (WIN32 : bool) (e : env) (s : state)
  : result unit * state * list event :=
  loop_body WIN32 e s.

(** A card was detected and its serial read: line 63 does not [continue]. *)
Definition detected (e : env) : option Uid :=
  if card_present e then card_serial e else None.

(** The driver calls the [try] block makes, in order, when the [SELECT]
    finds a row ([found = true]) and when it finds none. *)
Definition calls_of (found : bool) : list call :=
  [select_prepareStatement; select_setString; select_executeQuery; res_next] ++
  (if found
   then [res_getString; res_getInt; update_prepareStatement; update_setInt;
         update_setString; update_executeUpdate]
   else [insert_prepareStatement; insert_setString; insert_executeUpdate]).

(** The message of the first of the calls [cs] that raises, if any. *)
Fixpoint raised (e : env) (cs : list call) : option string :=
  match cs with
  | [] => None
  | c :: cs' =>
      match throws e c with
      | Some msg => Some msg
      | None => raised e cs'
      end
  end.

Definition registered (d : database) (uid : string) : bool :=
  match lookup d uid with Some _ => true | None => false end.

(** The sleep [delay(1000)] makes. *)
Definition sleep_1000 (WIN32 : bool) : event :=
  if WIN32 then ev_Sleep 1000 else ev_usleep 1000000.

(** The milliseconds slept in a trace, sleep by sleep. *)
Definition sleeps (t : list event) : list Z :=
  flat_map (fun ev => match slept ev with Some ms => [ms] | None => [] end) t.

(** The events the [try] block can leave: statements run and lines on
    standard output. *)
Definition is_block_event (ev : event) : bool :=
  match ev with
  | ev_executeQuery _ _ | ev_executeUpdate _ _ | ev_cout _ => true
  | _ => false
  end.

(** A statement run carries [uid] as its one string parameter and no
    other string. *)
Definition keyed_by (uid : string) (ev : event) : bool :=
  match ev with
  | ev_executeQuery _ args | ev_executeUpdate _ args =>
      existsb (fun p => match snd p with PString _ => true | PInt _ => false end) args
      && forallb (fun p => match snd p with
                           | PString v => String.eqb v uid
                           | PInt _ => true
                           end) args
  | _ => true
  end.

(** [getString("username")] of a row. *)
Definition name_of (r : row) : string :=
  match username r with Some n => n | None => "" end.

(** ** Sample inputs *)

(** A card with the four-byte UID 0A FF 00 9C. *)
Definition card : Uid :=
  {| size := x04; uidByte := [x0a; xff; x00; x9c; x00; x00; x00; x00; x00; x00] |}.

Definition quiet : call -> option string := fun _ => None.

(** The card is read at time [now] and no driver call raises. *)
Definition tap (now : Z) : env :=
  {| card_present := true; card_serial := Some card; NOW := now; throws := quiet |}.

(** No card is in the field. *)
Definition idle : env :=
  {| card_present := false; card_serial := None; NOW := 0; throws := quiet |}.

(** The card is read and the server is lost when the [UPDATE] runs. *)
Definition tap_update_lost : env :=
  {| card_present := true; card_serial := Some card; NOW := 7;
     throws := fun c => match c with
                        | update_executeUpdate => Some "Lost connection to MySQL server"
                        | _ => None
                        end |}.

(** The card is read and the server is lost when the [INSERT] runs. *)
Definition tap_insert_lost : env :=
  {| card_present := true; card_serial := Some card; NOW := 7;
     throws := fun c => match c with
                        | insert_executeUpdate => Some "Lost connection to MySQL server"
                        | _ => None
                        end |}.

Definition no_uid : Uid := {| size := x00; uidByte := [] |}.

(** An empty table. *)
Definition fresh : state :=
  {| mfrc_uid := no_uid; db := {| users := []; username_default := None |} |}.

(** The card is registered to alice with [n] taps. *)
Definition alice (n : Z) : row :=
  {| UID := "0AFF009C"; tap_count := n; username := Some "alice";
     last_scan_time := Some 0 |}.

Definition with_alice (n : Z) : state :=
  {| mfrc_uid := no_uid; db := {| users := [alice n]; username_default := None |} |}.

Definition good_boot : boot := {| connect_throws := None; setSchema_throws := None |}.

(** ** Reading a run of several iterations *)

(** The statements run in a trace, in order. *)
Definition statements (t : list event) : list statement :=
  flat_map (fun ev => match ev with
                      | ev_executeQuery q _ | ev_executeUpdate q _ => [q]
                      | _ => []
                      end) t.

(** The iteration reads a card whose UID string is [uid]. *)
Definition is_tap_of (uid : string) (e : env) : bool :=
  match detected e with
  | Some u => String.eqb (uidStr_of u) uid
  | None => false
  end.

(** How often a card with the UID string [uid] is read in [envs]. *)
Definition taps_of (uid : string) (envs : list env) : nat :=
  List.length (filter (is_tap_of uid) envs).

(** The iteration reads some card. *)
Definition is_handled (e : env) : bool :=
  match detected e with Some _ => true | None => false end.

(** The tap count the table holds for [uid]: that of the first row a
    [SELECT] returns, 0 when there is none. *)
Definition stored_count (d : database) (uid : string) : Z :=
  match lookup d uid with Some r => tap_count r | None => 0 end.

(** The calls of [PICC_ReadCardSerial] in a trace, with their answers. *)
Definition serial_reads (t : list event) : list bool :=
  flat_map (fun ev => match ev with ev_ReadCardSerial r => [r] | _ => [] end) t.

(** The run of the loop on the inputs [envs]. *)
Definition run (WIN32 : bool) (envs : list env) (s : state)
  : result progress * state * list event :=
  while 1 (loop_body WIN32) envs s.

(** Reading a UID string back, used to show that distinct UIDs get
    distinct strings: the value of a digit and the bytes of a string of
    digit pairs. *)
Definition digit_value (c : ascii) : N :=
  let n := N_of_ascii c in
  if (n <? 58)%N then (n - 48)%N else (n - 55)%N.

Definition byte_of_digits (a b : ascii) : byte :=
  match Byte.of_N (16 * digit_value a + digit_value b) with
  | Some x => x
  | None => x00
  end.

Fixpoint decode_hex (s : string) : list byte :=
  match s with
  | String a (String b rest) => byte_of_digits a b :: decode_hex rest
  | _ => []
  end.

(** A second card, with the seven-byte UID 04 A2 5B 1C 9D 3E 80, and a
    tap of it. *)
Definition card_b : Uid :=
  {| size := x07; uidByte := [x04; xa2; x5b; x1c; x9d; x3e; x80; x00; x00; x00] |}.

Definition tap_b (now : Z) : env :=
  {| card_present := true; card_serial := Some card_b; NOW := now; throws := quiet |}.

(** The card is in the field but its serial cannot be read. *)
Definition unread : env :=
  {| card_present := true; card_serial := None; NOW := 0; throws := quiet |}.

(** * Properties *)

(** ** Strings and integers *)

Lemma append_empty_r (s : string) : s ++ "" = s.
Proof. induction s as [|c s IH]; simpl; [reflexivity | now rewrite IH]. Qed.

Lemma append_assoc (a b c : string) : (a ++ b) ++ c = a ++ (b ++ c).
Proof. induction a as [|x a IH]; simpl; [reflexivity | now rewrite IH]. Qed.

Lemma length_append (a b : string) :
  String.length (a ++ b) = (String.length a + String.length b)%nat.
Proof. induction a as [|x a IH]; simpl; [reflexivity | now rewrite IH]. Qed.

Lemma list_ascii_append (a b : string) :
  list_ascii_of_string (a ++ b) = (list_ascii_of_string a ++ list_ascii_of_string b)%list.
Proof. induction a as [|x a IH]; simpl; [reflexivity | now rewrite IH]. Qed.

Lemma int_wrap_small (z : Z) : INT_MIN <= z <= INT_MAX -> int_wrap z = z.
Proof.
  unfold INT_MIN, INT_MAX, int_wrap. intros H.
  rewrite Z.mod_small by lia. lia.
Qed.


Lemma int_wrap_even (z : Z) : Z.even (int_wrap z) = Z.even z.
Proof.
  unfold int_wrap.
  rewrite (Z.mod_eq (z + 2147483648) 4294967296) by lia.
  set (q := (z + 2147483648) / 4294967296).
  replace (z + 2147483648 - 4294967296 * q - 2147483648)
    with (z + 2 * (- 2147483648 * q)) by lia.
  now rewrite Z.even_add_mul_2.
Qed.

(** [n % 2 == 0] tests evenness, also of a negative [n]. *)
Lemma int_rem_2 (n : Z) : (int_rem n 2 =? 0) = Z.even n.
Proof.
  unfold int_rem.
  destruct (Z.even n) eqn:E.
  - apply Z.eqb_eq. apply Z.even_spec in E. destruct E as [k ->].
    rewrite Z.mul_comm. now apply Z.rem_mul.
  - apply Z.eqb_neq. intros R.
    pose proof (Z.quot_rem' n 2) as Q. rewrite R in Q.
    assert (Z.even n = true) by (apply Z.even_spec; exists (Z.quot n 2); lia).
    congruence.
Qed.

(** ** The UID string *)

Lemma byte_text (b : byte) :
  Stream.pad 2 "0"%char (Stream.int_text true true (Z.of_N (Byte.to_N b))) = byte_hex b.
Proof. destruct b; vm_compute; reflexivity. Qed.

Lemma byte_hex_length (b : byte) : String.length (byte_hex b) = 2%nat.
Proof. reflexivity. Qed.

Lemma byte_hex_upper (b : byte) :
  forallb is_upper_hex (list_ascii_of_string (byte_hex b)) = true.
Proof. destruct b; vm_compute; reflexivity. Qed.

(** One turn of the loop appends the two digits of byte [i]; the field
    width is 0 again afterwards. *)
Lemma uid_loop_body_spec (u : Uid) (i : N) (ss : Stream.stringstream) :
  Stream.width ss = 0%nat ->
  uid_loop_body u i ss =
  Stream.mkStream (Stream.str ss ++ byte_hex (uidByte_at u i)) 0 "0"%char true true.
Proof.
  intros W. unfold uid_loop_body.
  assert (E : Stream.str (if (0 <? i)%N then Stream.put_string "" ss else ss)
              = Stream.str ss).
  { destruct (0 <? i)%N; [| reflexivity].
    unfold Stream.put_string, Stream.insert. simpl. rewrite W. simpl.
    apply append_empty_r. }
  unfold Stream.put_int, Stream.insert, Stream.setfill, Stream.setw,
    Stream.std_uppercase, Stream.std_hex.
  cbn [Stream.str Stream.width Stream.fill Stream.hex Stream.uppercase].
  rewrite E, byte_text. reflexivity.
Qed.

Lemma uid_loop_spec (u : Uid) (k : nat) :
  forall (i fuel : nat) (ss : Stream.stringstream),
    (i + k)%nat = N.to_nat (Byte.to_N (size u)) ->
    (k < fuel)%nat ->
    Stream.width ss = 0%nat ->
    Stream.str (uid_loop fuel u (N.of_nat i) ss) =
    Stream.str ss ++
      concat_strings (map byte_hex (map (fun j => uidByte_at u (N.of_nat j)) (seq i k))).
Proof.
  pose proof (Byte.to_N_bounded (size u)) as B.
  induction k as [|k IH]; intros i fuel ss Hik Hf W.
  - destruct fuel as [|fuel]; [lia|]. simpl.
    replace (N.of_nat i <? Byte.to_N (size u))%N with false
      by (symmetry; apply N.ltb_ge; lia).
    now rewrite append_empty_r.
  - destruct fuel as [|fuel]; [lia|]. simpl.
    replace (N.of_nat i <? Byte.to_N (size u))%N with true
      by (symmetry; apply N.ltb_lt; lia).
    replace (byte_wrap (N.of_nat i + 1)) with (N.of_nat (S i)).
    2:{ unfold byte_wrap. rewrite N.mod_small by lia. lia. }
    rewrite (uid_loop_body_spec u (N.of_nat i) ss W).
    rewrite IH by (simpl; lia). simpl.
    now rewrite append_assoc.
Qed.

Lemma uidStr_of_bytes (u : Uid) :
  uidStr_of u = concat_strings (map byte_hex (uid_bytes u)).
Proof.
  unfold uidStr_of, uid_bytes.
  pose proof (Byte.to_N_bounded (size u)) as B.
  change (uid_loop 256 u 0 Stream.init) with (uid_loop 256 u (N.of_nat 0) Stream.init).
  rewrite (uid_loop_spec u (N.to_nat (Byte.to_N (size u))) 0 256 Stream.init);
    [reflexivity | reflexivity | lia | reflexivity].
Qed.

Lemma concat_hex_length (l : list byte) :
  String.length (concat_strings (map byte_hex l)) = (2 * List.length l)%nat.
Proof.
  induction l as [|b l IH]; [reflexivity|].
  cbn [concat_strings map]. rewrite length_append, IH, byte_hex_length.
  cbn [List.length]. lia.
Qed.

Lemma concat_hex_upper (l : list byte) :
  forallb is_upper_hex (list_ascii_of_string (concat_strings (map byte_hex l))) = true.
Proof.
  induction l as [|b l IH]; [reflexivity|].
  cbn [concat_strings map]. rewrite list_ascii_append, forallb_app, IH, byte_hex_upper.
  reflexivity.
Qed.

Lemma map_nth_seq (l : list byte) :
  forall n, (n <= List.length l)%nat ->
    map (fun i => nth i l x00) (seq 0 n) = firstn n l.
Proof.
  induction l as [|a l IH]; intros n H.
  - simpl in H. replace n with 0%nat by lia. reflexivity.
  - destruct n as [|n]; [reflexivity|].
    simpl in H. cbn [seq map firstn nth]. f_equal.
    rewrite <- seq_shift, map_map. cbn [nth]. apply IH. lia.
Qed.

(** When [size] stays within the array, the bytes rendered are its first
    [size] bytes. *)
Lemma uid_bytes_firstn (u : Uid) :
  (N.to_nat (Byte.to_N (size u)) <= List.length (uidByte u))%nat ->
  uid_bytes u = firstn (N.to_nat (Byte.to_N (size u))) (uidByte u).
Proof.
  intros H. unfold uid_bytes, uidByte_at.
  rewrite <- (map_nth_seq _ _ H).
  apply map_ext. intros i. now rewrite Nat2N.id.
Qed.

(** ** One iteration of the loop *)

Lemma raised_none (e : env) (cs : list call) :
  raised e cs = None -> forall c, In c cs -> throws e c = None.
Proof.
  induction cs as [|c0 cs IH]; intros H c Hc; [destruct Hc|].
  simpl in H. destruct (throws e c0) eqn:E; [discriminate|].
  destruct Hc as [<- | Hc]; [exact E | now apply IH].
Qed.

Ltac unfold_block :=
  unfold try_block, prepareStatement, setString, setInt, executeQuery,
    executeUpdate, next, getString, getInt, driver, refused, cout, cerr;
  unfold bind, ret, throw, emit, get_state, put_state.

Ltac no_raise H c :=
  rewrite (raised_none _ _ H c) by (simpl; tauto).

Lemma try_block_found (e : env) (uid : string) (s : state) (r : row) :
  lookup (db s) uid = Some r ->
  raised e (calls_of true) = None ->
  try_block e uid s =
  (Ok tt,
   {| mfrc_uid := mfrc_uid s;
      db := update_users (db s) (int_add (int_wrap (tap_count r)) 1) uid (NOW e) |},
   [ev_executeQuery SELECT_users [(1%nat, PString uid)];
    ev_executeUpdate UPDATE_users
      [(2%nat, PString uid); (1%nat, PInt (int_add (int_wrap (tap_count r)) 1))];
    ev_cout ((if Z.even (int_add (int_wrap (tap_count r)) 1)
              then "Goodbye " else "Hello ") ++ name_of r)]).
Proof.
  intros L H. unfold lookup in L.
  destruct (select_users (db s) uid) as [|r0 rest] eqn:Q; [discriminate|].
  injection L as ->.
  unfold_block.
  no_raise H select_prepareStatement. no_raise H select_setString.
  no_raise H select_executeQuery. no_raise H res_next.
  cbn. rewrite Q. cbn.
  no_raise H res_getString. no_raise H res_getInt.
  no_raise H update_prepareStatement. no_raise H update_setInt.
  no_raise H update_setString. no_raise H update_executeUpdate.
  cbn. rewrite int_rem_2.
  destruct (Z.even (int_add (int_wrap (tap_count r)) 1)); reflexivity.
Qed.

Lemma try_block_absent (e : env) (uid : string) (s : state) :
  lookup (db s) uid = None ->
  raised e (calls_of false) = None ->
  try_block e uid s =
  (Ok tt,
   {| mfrc_uid := mfrc_uid s; db := insert_users (db s) uid (NOW e) |},
   [ev_executeQuery SELECT_users [(1%nat, PString uid)];
    ev_executeUpdate INSERT_users [(1%nat, PString uid)];
    ev_cout "UID inserted into database."]).
Proof.
  intros L H. unfold lookup in L.
  destruct (select_users (db s) uid) as [|r0 rest] eqn:Q; [|discriminate].
  unfold_block.
  no_raise H select_prepareStatement. no_raise H select_setString.
  no_raise H select_executeQuery. no_raise H res_next.
  cbn. rewrite Q. cbn.
  no_raise H insert_prepareStatement. no_raise H insert_setString.
  no_raise H insert_executeUpdate.
  reflexivity.
Qed.

Ltac split_raise :=
  match goal with
  | H : context [throws ?e ?c] |- _ =>
      let E := fresh "E" in
      destruct (throws e c) eqn:E; cbn in H |- *
  end.

Ltac quiet_trace :=
  cbn; rewrite ?String.eqb_refl; repeat split.

(** When a call on the path raises, the block ends with that exception:
    the table is as before and nothing was printed. *)
Lemma try_block_raised (e : env) (uid : string) (s : state) (msg : string) :
  raised e (calls_of (registered (db s) uid)) = Some msg ->
  exists t,
    try_block e uid s = (Throw (mkSQLException msg), s, t)
    /\ stdout t = [] /\ forallb is_block_event t = true
    /\ forallb (keyed_by uid) t = true.
Proof.
  unfold registered, lookup. intros H.
  unfold_block.
  destruct (select_users (db s) uid) as [|r0 rest] eqn:Q; cbn in H |- *.
  - do 4 (split_raise; [injection H as <-; eexists; split; [reflexivity | quiet_trace] |]).
    rewrite Q. cbn.
    do 3 (split_raise; [injection H as <-; eexists; split; [reflexivity | quiet_trace] |]).
    discriminate.
  - do 4 (split_raise; [injection H as <-; eexists; split; [reflexivity | quiet_trace] |]).
    rewrite Q. cbn.
    do 6 (split_raise; [injection H as <-; eexists; split; [reflexivity | quiet_trace] |]).
    discriminate.
Qed.

(** The block returns exactly when no call on its path raises. *)
Lemma try_block_cases (e : env) (uid : string) (s : state) :
  match raised e (calls_of (registered (db s) uid)) with
  | Some msg =>
      exists t, try_block e uid s = (Throw (mkSQLException msg), s, t)
                /\ stdout t = [] /\ forallb is_block_event t = true
                /\ forallb (keyed_by uid) t = true
  | None =>
      exists s' t, try_block e uid s = (Ok tt, s', t)
                   /\ mfrc_uid s' = mfrc_uid s
                   /\ forallb is_block_event t = true
  end.
Proof.
  destruct (raised e (calls_of (registered (db s) uid))) as [msg|] eqn:R.
  - now apply try_block_raised.
  - unfold registered in R. destruct (lookup (db s) uid) as [r|] eqn:L.
    + rewrite (try_block_found e uid s r L R). eexists _, _. now repeat split.
    + rewrite (try_block_absent e uid s L R). eexists _, _. now repeat split.
Qed.

Lemma loop_body_idle (W : bool) (e : env) (s : state) :
  card_present e = false ->
  loop_body W e s = (Ok tt, s, [ev_IsNewCardPresent false]).
Proof.
  intros P. unfold loop_body, no_card, PICC_IsNewCardPresent, bind, emit, ret.
  rewrite P. reflexivity.
Qed.

Lemma loop_body_unread (W : bool) (e : env) (s : state) :
  card_present e = true -> card_serial e = None ->
  loop_body W e s = (Ok tt, s, [ev_IsNewCardPresent true; ev_ReadCardSerial false]).
Proof.
  intros P R.
  unfold loop_body, no_card, PICC_IsNewCardPresent, PICC_ReadCardSerial, bind, emit, ret.
  rewrite P, R. reflexivity.
Qed.

(** With a card read, the iteration is the [try] block between the UID
    line and the sleep; an exception of the block is turned into a line
    on standard error. *)
Lemma loop_body_detected (W : bool) (e : env) (s : state) (u : Uid) :
  detected e = Some u ->
  loop_body W e s =
  match try_block e (uidStr_of u) {| mfrc_uid := u; db := db s |} with
  | (Ok _, s', t) =>
      (Ok tt, s',
       [ev_IsNewCardPresent true; ev_ReadCardSerial true;
        ev_cout ("UID: " ++ uidStr_of u)] ++ t ++ [sleep_1000 W])%list
  | (Throw ex, s', t) =>
      (Ok tt, s',
       [ev_IsNewCardPresent true; ev_ReadCardSerial true;
        ev_cout ("UID: " ++ uidStr_of u)] ++ t ++
       [ev_cerr ("SQL Exception: " ++ what ex); sleep_1000 W])%list
  end.
Proof.
  unfold detected. intros D.
  destruct (card_present e) eqn:P; [|discriminate].
  unfold loop_body, no_card, PICC_IsNewCardPresent, PICC_ReadCardSerial, try_catch,
    delay, sleep_1000, cout, cerr, bind, emit, ret, get_state, put_state.
  rewrite P, D. cbn.
  destruct (try_block e (uidStr_of u) {| mfrc_uid := u; db := db s |})
    as [[[a|ex] s'] t]; destruct W; cbn;
    rewrite ?app_nil_r, <- ?app_assoc; reflexivity.
Qed.

(** ** What an iteration returns, writes and prints *)

Lemma detected_none (e : env) :
  detected e = None ->
  card_present e = false \/ (card_present e = true /\ card_serial e = None).
Proof.
  unfold detected. destruct (card_present e); intros H; [right | left]; auto.
Qed.

Lemma loop_body_undetected (W : bool) (e : env) (s : state) :
  detected e = None ->
  exists t, loop_body W e s = (Ok tt, s, t)
            /\ forallb (fun ev => is_poll ev || match ev with ev_ReadCardSerial _ => true | _ => false end) t = true
            /\ List.length (filter is_poll t) = 1%nat.
Proof.
  intros D. destruct (detected_none e D) as [P | [P R]].
  - rewrite (loop_body_idle W e s P). eexists. now repeat split.
  - rewrite (loop_body_unread W e s P R). eexists. now repeat split.
Qed.

Lemma block_events_quiet (t : list event) :
  forallb is_block_event t = true ->
  stderr t = [] /\ sleeps t = [] /\ filter is_connect t = [] /\ filter is_poll t = [].
Proof.
  induction t as [|ev t IH]; [now repeat split|].
  cbn [forallb]. intros H. apply andb_prop in H. destruct H as [H1 H2].
  destruct (IH H2) as (A & B & C & D).
  destruct ev; try discriminate; cbn; now repeat split.
Qed.

Lemma stdout_app (a b : list event) : stdout (a ++ b) = (stdout a ++ stdout b)%list.
Proof. apply flat_map_app. Qed.

Lemma stderr_app (a b : list event) : stderr (a ++ b) = (stderr a ++ stderr b)%list.
Proof. apply flat_map_app. Qed.

Lemma sleeps_app (a b : list event) : sleeps (a ++ b) = (sleeps a ++ sleeps b)%list.
Proof. apply flat_map_app. Qed.

Lemma sleeps_sleep_1000 (W : bool) : sleeps [sleep_1000 W] = [1000].
Proof. destruct W; reflexivity. Qed.

Lemma slept_sleep_1000 (W : bool) : slept (sleep_1000 W) = Some 1000.
Proof. destruct W; reflexivity. Qed.

(** An iteration never throws. *)
Lemma iteration_returns (W : bool) (e : env) (s : state) :
  exists s' t, iteration W e s = (Ok tt, s', t).
Proof.
  unfold iteration. destruct (detected e) as [u|] eqn:D.
  - rewrite (loop_body_detected W e s u D).
    destruct (try_block e (uidStr_of u) {| mfrc_uid := u; db := db s |})
      as [[[a|ex] s'] t]; eexists _, _; reflexivity.
  - destruct (loop_body_undetected W e s D) as (t & E & _). eexists _, _. exact E.
Qed.

(** The table after an iteration. *)
Lemma iteration_db (W : bool) (e : env) (s : state) :
  db (snd (fst (iteration W e s))) =
  match detected e with
  | None => db s
  | Some u =>
      match raised e (calls_of (registered (db s) (uidStr_of u))) with
      | Some _ => db s
      | None =>
          match lookup (db s) (uidStr_of u) with
          | Some r =>
              update_users (db s) (int_add (int_wrap (tap_count r)) 1)
                (uidStr_of u) (NOW e)
          | None => insert_users (db s) (uidStr_of u) (NOW e)
          end
      end
  end.
Proof.
  unfold iteration. destruct (detected e) as [u|] eqn:D.
  - rewrite (loop_body_detected W e s u D).
    destruct (raised e (calls_of (registered (db s) (uidStr_of u)))) as [msg|] eqn:R.
    + destruct (try_block_raised e (uidStr_of u) {| mfrc_uid := u; db := db s |} msg R)
        as (t & E & _).
      rewrite E. reflexivity.
    + unfold registered in R.
      destruct (lookup (db s) (uidStr_of u)) as [r|] eqn:L.
      * rewrite (try_block_found e (uidStr_of u) {| mfrc_uid := u; db := db s |} r L R).
        reflexivity.
      * rewrite (try_block_absent e (uidStr_of u) {| mfrc_uid := u; db := db s |} L R).
        reflexivity.
  - destruct (loop_body_undetected W e s D) as (t & E & _). rewrite E. reflexivity.
Qed.

(** What an iteration leaves on standard output, on standard error and
    in sleeps; it never connects and polls the reader once. *)
Lemma iteration_output (W : bool) (e : env) (s : state) :
  let t := snd (iteration W e s) in
  stdout t =
    match detected e with
    | None => []
    | Some u =>
        ("UID: " ++ uidStr_of u) ::
        match raised e (calls_of (registered (db s) (uidStr_of u))) with
        | Some _ => []
        | None =>
            match lookup (db s) (uidStr_of u) with
            | Some r =>
                [(if Z.even (int_add (int_wrap (tap_count r)) 1)
                  then "Goodbye " else "Hello ") ++ name_of r]
            | None => ["UID inserted into database."]
            end
        end
    end
  /\ stderr t =
     match detected e with
     | None => []
     | Some u =>
         match raised e (calls_of (registered (db s) (uidStr_of u))) with
         | Some msg => ["SQL Exception: " ++ msg]
         | None => []
         end
     end
  /\ sleeps t = match detected e with None => [] | Some _ => [1000] end
  /\ filter is_connect t = []
  /\ List.length (filter is_poll t) = 1%nat.
Proof.
  unfold iteration. cbv zeta. destruct (detected e) as [u|] eqn:D.
  - rewrite (loop_body_detected W e s u D).
    destruct (raised e (calls_of (registered (db s) (uidStr_of u)))) as [msg|] eqn:R.
    + destruct (try_block_raised e (uidStr_of u) {| mfrc_uid := u; db := db s |} msg R)
        as (t & E & O & B & _).
      rewrite E. cbn [snd].
      destruct (block_events_quiet t B) as (B1 & B2 & B3 & B4).
      rewrite !stdout_app, !stderr_app, !sleeps_app, !filter_app, O, B1, B2, B3, B4.
      destruct W; now repeat split.
    + unfold registered in R.
      destruct (lookup (db s) (uidStr_of u)) as [r|] eqn:L.
      * rewrite (try_block_found e (uidStr_of u) {| mfrc_uid := u; db := db s |} r L R).
        destruct W; now repeat split.
      * rewrite (try_block_absent e (uidStr_of u) {| mfrc_uid := u; db := db s |} L R).
        destruct W; now repeat split.
  - destruct (detected_none e D) as [P | [P R]].
    + rewrite (loop_body_idle W e s P). now repeat split.
    + rewrite (loop_body_unread W e s P R). now repeat split.
Qed.

(** ** The table *)

Lemma lookup_in (d : database) (uid : string) (r : row) :
  lookup d uid = Some r -> In r (users d) /\ UID r = uid.
Proof.
  unfold lookup, select_users. intros H.
  destruct (filter (fun x => String.eqb (UID x) uid) (users d)) as [|x l] eqn:F;
    [discriminate|].
  injection H as ->.
  assert (I : In r (filter (fun x => String.eqb (UID x) uid) (users d)))
    by (rewrite F; now left).
  apply filter_In in I. destruct I as [I E]. split; [exact I|].
  now apply String.eqb_eq.
Qed.

Lemma lookup_update (d : database) (uid : string) (r : row) (n now : Z) :
  lookup d uid = Some r ->
  lookup (update_users d n uid now) uid =
  Some {| UID := UID r; tap_count := n; username := username r;
          last_scan_time := Some now |}.
Proof.
  unfold lookup, select_users, update_users. cbn [users].
  induction (users d) as [|x l IH]; [discriminate|].
  cbn [map filter]. destruct (String.eqb (UID x) uid) eqn:E.
  - cbn [UID]. rewrite E. cbn [hd_error]. now intros [= ->].
  - rewrite E. exact IH.
Qed.

Lemma lookup_insert (d : database) (uid : string) (now : Z) :
  lookup d uid = None ->
  lookup (insert_users d uid now) uid =
  Some {| UID := uid; tap_count := 1; username := username_default d;
          last_scan_time := Some now |}.
Proof.
  unfold lookup, select_users, insert_users. cbn [users]. intros H.
  rewrite filter_app.
  destruct (filter (fun x => String.eqb (UID x) uid) (users d)); [|discriminate].
  cbn. now rewrite String.eqb_refl.
Qed.

Lemma update_users_rows (d : database) (uid : string) (n now : Z) (x' : row) :
  In x' (users (update_users d n uid now)) ->
  (In x' (users d) /\ UID x' <> uid) \/ (UID x' = uid /\ tap_count x' = n
                                        /\ last_scan_time x' = Some now).
Proof.
  unfold update_users. cbn [users]. intros H.
  apply in_map_iff in H. destruct H as (x & E & I).
  destruct (String.eqb (UID x) uid) eqn:Q.
  - right. subst x'. cbn. apply String.eqb_eq in Q. now repeat split.
  - left. subst x'. split; [exact I|]. now apply String.eqb_neq.
Qed.

(** ** The loop *)

Lemma while_cons (W : bool) (e : env) (envs : list env) (s : state) :
  while 1 (loop_body W) (e :: envs) s =
  match iteration W e s with
  | (Ok _, s1, t1) =>
      match while 1 (loop_body W) envs s1 with
      | (r, s2, t2) => (r, s2, (t1 ++ t2)%list)
      end
  | (Throw ex, s1, t1) => (Throw ex, s1, t1)
  end.
Proof. reflexivity. Qed.

(** The loop never ends by itself and never throws: however many inputs
    it is given, it takes them all, one poll each, and is still looping. *)
Lemma while_runs (W : bool) (envs : list env) :
  forall s, exists s' t,
    while 1 (loop_body W) envs s = (Ok Looping, s', t)
    /\ filter is_connect t = []
    /\ List.length (filter is_poll t) = List.length envs.
Proof.
  induction envs as [|e envs IH]; intros s.
  - exists s, []. now repeat split.
  - rewrite while_cons.
    destruct (iteration_returns W e s) as (s1 & t1 & E).
    pose proof (iteration_output W e s) as O. cbv zeta in O. rewrite E in O.
    cbn [snd] in O. destruct O as (_ & _ & _ & C & P).
    rewrite E. destruct (IH s1) as (s2 & t2 & E2 & C2 & P2). rewrite E2.
    exists s2, (t1 ++ t2)%list. split; [reflexivity|].
    rewrite !filter_app, C, C2, length_app, P, P2. now split.
Qed.

(** ** Sample runs *)

Example uidStr_of_card : uidStr_of card = "0AFF009C".
Proof. reflexivity. Qed.

Example first_tap :
  iteration false (tap 50) fresh =
  (Ok tt,
   {| mfrc_uid := card;
      db := {| users := [ {| UID := "0AFF009C"; tap_count := 1; username := None;
                             last_scan_time := Some 50 |} ];
               username_default := None |} |},
   [ev_IsNewCardPresent true; ev_ReadCardSerial true; ev_cout "UID: 0AFF009C";
    ev_executeQuery SELECT_users [(1%nat, PString "0AFF009C")];
    ev_executeUpdate INSERT_users [(1%nat, PString "0AFF009C")];
    ev_cout "UID inserted into database."; ev_usleep 1000000]).
Proof. reflexivity. Qed.

Example fifth_tap_update_lost :
  iteration true tap_update_lost (with_alice 4) =
  (Ok tt, {| mfrc_uid := card; db := db (with_alice 4) |},
   [ev_IsNewCardPresent true; ev_ReadCardSerial true; ev_cout "UID: 0AFF009C";
    ev_executeQuery SELECT_users [(1%nat, PString "0AFF009C")];
    ev_executeUpdate UPDATE_users [(2%nat, PString "0AFF009C"); (1%nat, PInt 5)];
    ev_cerr "SQL Exception: Lost connection to MySQL server"; ev_Sleep 1000]).
Proof. reflexivity. Qed.

Example three_polls :
  stdout (snd (main false good_boot [tap 50; idle; tap 60] fresh)) =
  ["UID: 0AFF009C"; "UID inserted into database."; "UID: 0AFF009C"; "Goodbye "].
Proof. reflexivity. Qed.

(** ** The claims *)

Lemma iteration_found (W : bool) (e : env) (s : state) (u : Uid) (r : row) :
  detected e = Some u ->
  lookup (db s) (uidStr_of u) = Some r ->
  raised e (calls_of true) = None ->
  iteration W e s =
  (Ok tt,
   {| mfrc_uid := u;
      db := update_users (db s) (int_add (int_wrap (tap_count r)) 1)
              (uidStr_of u) (NOW e) |},
   [ev_IsNewCardPresent true; ev_ReadCardSerial true;
    ev_cout ("UID: " ++ uidStr_of u);
    ev_executeQuery SELECT_users [(1%nat, PString (uidStr_of u))];
    ev_executeUpdate UPDATE_users
      [(2%nat, PString (uidStr_of u));
       (1%nat, PInt (int_add (int_wrap (tap_count r)) 1))];
    ev_cout ((if Z.even (int_add (int_wrap (tap_count r)) 1)
              then "Goodbye " else "Hello ") ++ name_of r);
    sleep_1000 W]).
Proof.
  intros D L R. unfold iteration.
  rewrite (loop_body_detected W e s u D).
  rewrite (try_block_found e (uidStr_of u) {| mfrc_uid := u; db := db s |} r L R).
  reflexivity.
Qed.

Lemma iteration_absent (W : bool) (e : env) (s : state) (u : Uid) :
  detected e = Some u ->
  lookup (db s) (uidStr_of u) = None ->
  raised e (calls_of false) = None ->
  iteration W e s =
  (Ok tt,
   {| mfrc_uid := u; db := insert_users (db s) (uidStr_of u) (NOW e) |},
   [ev_IsNewCardPresent true; ev_ReadCardSerial true;
    ev_cout ("UID: " ++ uidStr_of u);
    ev_executeQuery SELECT_users [(1%nat, PString (uidStr_of u))];
    ev_executeUpdate INSERT_users [(1%nat, PString (uidStr_of u))];
    ev_cout "UID inserted into database.";
    sleep_1000 W]).
Proof.
  intros D L R. unfold iteration.
  rewrite (loop_body_detected W e s u D).
  rewrite (try_block_absent e (uidStr_of u) {| mfrc_uid := u; db := db s |} L R).
  reflexivity.
Qed.

Lemma int_incr (n : Z) :
  INT_MIN <= n < INT_MAX -> int_add (int_wrap n) 1 = n + 1.
Proof.
  intros H. unfold int_add.
  rewrite (int_wrap_small n) by lia. apply int_wrap_small. lia.
Qed.

(** C1 (as amended): when the card read has a UID for which the SELECT
    returns a row [r], no driver call on the way raises, and the stored
    tap count is an [int] below [INT_MAX], the iteration runs exactly
    one SELECT, keyed by the UID string, then one UPDATE, and the table
    afterwards is the old one with [tap_count r + 1] and the time
    [NOW()] written into every row of that UID; all other rows are as
    before. *)
Theorem C1_registered_tap_increments
  (W : bool) (e : env) (s : state) (u : Uid) (r : row) :
  detected e = Some u ->
  lookup (db s) (uidStr_of u) = Some r ->
  raised e (calls_of true) = None ->
  INT_MIN <= tap_count r < INT_MAX ->
  exists s' t,
    iteration W e s = (Ok tt, s', t)
    /\ In r (users (db s)) /\ UID r = uidStr_of u
    /\ users (db s') =
       map (fun x =>
              if String.eqb (UID x) (uidStr_of u)
              then {| UID := UID x; tap_count := tap_count r + 1;
                      username := username x;
                      last_scan_time := Some (NOW e) |}
              else x) (users (db s))
    /\ filter is_select t =
       [ev_executeQuery SELECT_users [(1%nat, PString (uidStr_of u))]]
    /\ exists pre post,
         t = (pre ++
              ev_executeQuery SELECT_users [(1%nat, PString (uidStr_of u))] ::
              ev_executeUpdate UPDATE_users
                [(2%nat, PString (uidStr_of u)); (1%nat, PInt (tap_count r + 1))] ::
              post)%list.
Proof.
  intros D L R B.
  rewrite (iteration_found W e s u r D L R), (int_incr _ B).
  destruct (lookup_in _ _ _ L) as [I U].
  eexists _, _. split; [reflexivity|].
  split; [exact I|]. split; [exact U|]. split; [reflexivity|].
  split; [destruct W; reflexivity|].
  exists [ev_IsNewCardPresent true; ev_ReadCardSerial true;
          ev_cout ("UID: " ++ uidStr_of u)].
  eexists. reflexivity.
Qed.

Lemma C1_registered_tap_increments_witness :
  exists s' t,
    iteration false (tap 50) (with_alice 4) = (Ok tt, s', t)
    /\ users (db s') =
       [ {| UID := "0AFF009C"; tap_count := 5; username := Some "alice";
            last_scan_time := Some 50 |} ].
Proof.
  destruct (C1_registered_tap_increments false (tap 50) (with_alice 4) card (alice 4))
    as (s' & t & E & _ & _ & T & _).
  - reflexivity.
  - reflexivity.
  - reflexivity.
  - unfold INT_MIN, INT_MAX. simpl. lia.
  - exists s', t. split; [exact E | exact T].
Defined.

(** C1 as stated fails at the largest [int]: the row holds 2147483647,
    the increment overflows, and the UPDATE writes -2147483648. *)
Lemma C1_overflow_counterexample :
  detected (tap 50) = Some card
  /\ lookup (db (with_alice 2147483647)) (uidStr_of card) = Some (alice 2147483647)
  /\ raised (tap 50) (calls_of true) = None
  /\ map tap_count (users (db (snd (fst (iteration false (tap 50) (with_alice 2147483647))))))
     = [-2147483648]
  /\ tap_count (alice 2147483647) + 1 = 2147483648.
Proof. repeat split; vm_compute; reflexivity. Qed.

(** C2: when the card read has a UID for which the SELECT returns no row
    and no driver call on the way raises, the iteration runs the INSERT
    and the table afterwards is the old one, row for row, followed by
    one new row with that UID, tap count 1 and the time [NOW()]. *)
Theorem C2_unknown_tap_inserts (W : bool) (e : env) (s : state) (u : Uid) :
  detected e = Some u ->
  lookup (db s) (uidStr_of u) = None ->
  raised e (calls_of false) = None ->
  exists s' t,
    iteration W e s = (Ok tt, s', t)
    /\ users (db s') =
       (users (db s) ++
        [ {| UID := uidStr_of u; tap_count := 1;
             username := username_default (db s);
             last_scan_time := Some (NOW e) |} ])%list
    /\ exists pre post,
         t = (pre ++ ev_executeUpdate INSERT_users [(1%nat, PString (uidStr_of u))] ::
              post)%list.
Proof.
  intros D L R. rewrite (iteration_absent W e s u D L R).
  eexists _, _. split; [reflexivity|]. split; [reflexivity|].
  exists [ev_IsNewCardPresent true; ev_ReadCardSerial true;
          ev_cout ("UID: " ++ uidStr_of u);
          ev_executeQuery SELECT_users [(1%nat, PString (uidStr_of u))]].
  eexists. reflexivity.
Qed.

Lemma C2_unknown_tap_inserts_witness :
  exists s' t,
    iteration false (tap 50) fresh = (Ok tt, s', t)
    /\ users (db s') =
       [ {| UID := "0AFF009C"; tap_count := 1; username := None;
            last_scan_time := Some 50 |} ].
Proof.
  destruct (C2_unknown_tap_inserts false (tap 50) fresh card)
    as (s' & t & E & T & _).
  - reflexivity.
  - reflexivity.
  - reflexivity.
  - exists s', t. split; [exact E | exact T].
Defined.

(** C3: on a tap of a registered UID that goes through, the line after
    the UID line greets the name of the row found: with "Hello" when the
    tap count [n] written by the UPDATE is odd and with "Goodbye" when
    it is even.  [n] is the count every row of that UID has afterwards,
    it is the old count plus 1 whenever that fits an [int], and the
    count the next tap writes has the other parity, so greetings
    alternate. *)
Theorem C3_greeting_by_parity
  (W : bool) (e : env) (s : state) (u : Uid) (r : row) :
  detected e = Some u ->
  lookup (db s) (uidStr_of u) = Some r ->
  raised e (calls_of true) = None ->
  exists s' t n r',
    iteration W e s = (Ok tt, s', t)
    /\ lookup (db s') (uidStr_of u) = Some r'
    /\ tap_count r' = n /\ name_of r' = name_of r
    /\ (forall x, In x (users (db s')) -> UID x = uidStr_of u -> tap_count x = n)
    /\ (INT_MIN <= tap_count r < INT_MAX -> n = tap_count r + 1)
    /\ (Z.odd n = true ->
        stdout t = ["UID: " ++ uidStr_of u; "Hello " ++ name_of r])
    /\ (Z.even n = true ->
        stdout t = ["UID: " ++ uidStr_of u; "Goodbye " ++ name_of r])
    /\ Z.even (int_add (int_wrap n) 1) = negb (Z.even n).
Proof.
  intros D L R.
  rewrite (iteration_found W e s u r D L R).
  set (n := int_add (int_wrap (tap_count r)) 1).
  eexists _, _, n, _. split; [reflexivity|].
  cbn [db]. split; [apply (lookup_update _ _ _ _ _ L)|].
  split; [reflexivity|]. split; [reflexivity|].
  split.
  { intros x I U. apply update_users_rows in I.
    destruct I as [[_ N] | (_ & T & _)]; [contradiction | exact T]. }
  split; [intros B; apply int_incr; exact B|].
  rewrite <- Z.negb_even.
  split; [| split].
  - intros O. destruct (Z.even n); [discriminate|]. destruct W; reflexivity.
  - intros E. rewrite E. destruct W; reflexivity.
  - unfold int_add.
    rewrite int_wrap_even, Z.add_1_r, Z.even_succ, <- Z.negb_even, int_wrap_even.
    reflexivity.
Qed.

Lemma C3_greeting_by_parity_witness :
  stdout (snd (iteration false (tap 50) (with_alice 4))) = ["UID: 0AFF009C"; "Hello alice"]
  /\ stdout (snd (iteration false (tap 50) (with_alice 5))) = ["UID: 0AFF009C"; "Goodbye alice"].
Proof.
  split.
  - destruct (C3_greeting_by_parity false (tap 50) (with_alice 4) card (alice 4))
      as (s' & t & n & r' & E & _ & _ & _ & _ & N & O & _);
      [reflexivity | reflexivity | reflexivity |].
    rewrite E. cbn [snd]. apply O. rewrite N; [reflexivity|].
    unfold INT_MIN, INT_MAX. simpl. lia.
  - destruct (C3_greeting_by_parity false (tap 50) (with_alice 5) card (alice 5))
      as (s' & t & n & r' & E & _ & _ & _ & _ & N & _ & G & _);
      [reflexivity | reflexivity | reflexivity |].
    rewrite E. cbn [snd]. apply G. rewrite N; [reflexivity|].
    unfold INT_MIN, INT_MAX. simpl. lia.
Defined.

(** Every statement an iteration runs is keyed by the UID string of the
    card read, also when a call raises. *)
Lemma iteration_keyed (W : bool) (e : env) (s : state) (u : Uid) :
  detected e = Some u ->
  forallb (keyed_by (uidStr_of u)) (snd (iteration W e s)) = true.
Proof.
  intros D. unfold iteration. rewrite (loop_body_detected W e s u D).
  destruct (raised e (calls_of (registered (db s) (uidStr_of u)))) as [msg|] eqn:R.
  - destruct (try_block_raised e (uidStr_of u) {| mfrc_uid := u; db := db s |} msg R)
      as (t & E & _ & _ & K).
    rewrite E. cbn [snd]. rewrite !forallb_app, K. destruct W; reflexivity.
  - unfold registered in R.
    destruct (lookup (db s) (uidStr_of u)) as [r|] eqn:L.
    + rewrite (try_block_found e (uidStr_of u) {| mfrc_uid := u; db := db s |} r L R).
      cbn. rewrite !String.eqb_refl. destruct W; reflexivity.
    + rewrite (try_block_absent e (uidStr_of u) {| mfrc_uid := u; db := db s |} L R).
      cbn. rewrite !String.eqb_refl. destruct W; reflexivity.
Qed.

(** C4: the UID string of a card is its bytes [uidByte[0..size-1]] in
    order, each rendered as exactly two uppercase hexadecimal digits
    (zero-padded, high digit first) with nothing in between; its length
    is twice the number of bytes and all its characters are among
    0-9 and A-F.  In the iteration of a detected card this string is
    what the UID line prints and the one string every statement run is
    keyed by. *)
Theorem C4_uid_uppercase_hex (u : Uid) :
  uidStr_of u = concat_strings (map byte_hex (uid_bytes u))
  /\ List.length (uid_bytes u) = N.to_nat (Byte.to_N (size u))
  /\ String.length (uidStr_of u) = (2 * N.to_nat (Byte.to_N (size u)))%nat
  /\ forallb is_upper_hex (list_ascii_of_string (uidStr_of u)) = true
  /\ forall W e s,
       detected e = Some u ->
       hd_error (stdout (snd (iteration W e s))) = Some ("UID: " ++ uidStr_of u)
       /\ forallb (keyed_by (uidStr_of u)) (snd (iteration W e s)) = true.
Proof.
  assert (L : List.length (uid_bytes u) = N.to_nat (Byte.to_N (size u))).
  { unfold uid_bytes. now rewrite List.length_map, List.length_seq. }
  split; [apply uidStr_of_bytes|]. split; [exact L|].
  split; [rewrite uidStr_of_bytes; now rewrite concat_hex_length, L|].
  split; [rewrite uidStr_of_bytes; apply concat_hex_upper|].
  intros W e s D. split; [| now apply iteration_keyed].
  pose proof (iteration_output W e s) as O. cbv zeta in O.
  destruct O as (O & _). rewrite D in O. now rewrite O.
Qed.

(** C5: an iteration never throws, whatever the driver does: an
    exception that ends the [try] block is caught, the iteration goes
    on with the line "SQL Exception: " followed by its message on
    standard error and with the sleep, and returns.  This happens
    exactly when a call of the SELECT, UPDATE or INSERT on the path
    raises; without that standard error stays empty.
    The loop is never left: given any number of inputs it takes one
    poll for each and is still looping, and [main] does not return. *)
Theorem C5_exceptions_caught_loop_goes_on (W : bool) :
  (forall e s u ex s1 t1,
      detected e = Some u ->
      try_block e (uidStr_of u) {| mfrc_uid := u; db := db s |} = (Throw ex, s1, t1) ->
      iteration W e s =
        (Ok tt, s1,
         [ev_IsNewCardPresent true; ev_ReadCardSerial true;
          ev_cout ("UID: " ++ uidStr_of u)] ++ t1 ++
         [ev_cerr ("SQL Exception: " ++ what ex); sleep_1000 W])%list)
  /\ (forall e s, exists s' t,
      iteration W e s = (Ok tt, s', t)
      /\ match detected e with
         | None => stderr t = []
         | Some u =>
             match raised e (calls_of (registered (db s) (uidStr_of u))) with
             | Some msg =>
                 stderr t = ["SQL Exception: " ++ msg]
                 /\ exists pre,
                      t = (pre ++ [ev_cerr ("SQL Exception: " ++ msg); sleep_1000 W])%list
             | None => stderr t = []
             end
         end)
  /\ (forall envs s, exists s' t,
         while 1 (loop_body W) envs s = (Ok Looping, s', t)
         /\ List.length (filter is_poll t) = List.length envs)
  /\ (forall envs s, exists s' t, main W good_boot envs s = (Ok None, s', t)).
Proof.
  split; [| split; [| split]].
  - intros e s u ex s1 t1 D T. unfold iteration.
    rewrite (loop_body_detected W e s u D), T. reflexivity.
  - intros e s.
    destruct (iteration_returns W e s) as (s' & t & E).
    exists s', t. split; [exact E|].
    pose proof (iteration_output W e s) as O. cbv zeta in O.
    destruct O as (_ & O & _).
    destruct (detected e) as [u|] eqn:D.
    + destruct (raised e (calls_of (registered (db s) (uidStr_of u)))) as [msg|] eqn:R.
      * unfold iteration in E.
        rewrite (loop_body_detected W e s u D) in E.
        destruct (try_block_raised e (uidStr_of u) {| mfrc_uid := u; db := db s |} msg R)
          as (t0 & E0 & _).
        rewrite E0 in E. injection E as <- <-.
        split.
        -- unfold iteration in O. rewrite (loop_body_detected W e s u D), E0 in O.
           exact O.
        -- exists ([ev_IsNewCardPresent true; ev_ReadCardSerial true;
                    ev_cout ("UID: " ++ uidStr_of u)] ++ t0)%list.
           cbn [what]. now rewrite <- app_assoc.
      * rewrite E in O. exact O.
    + rewrite E in O. exact O.
  - intros envs s. destruct (while_runs W envs s) as (s' & t & E & _ & P).
    now exists s', t.
  - intros envs s. unfold main, connect, setSchema, good_boot, bind, emit, ret.
    cbn [connect_throws setSchema_throws].
    destruct (while_runs W envs s) as (s' & t & E & _).
    rewrite E. eexists _, _. reflexivity.
Qed.

(** C6 as stated fails: an iteration that finds no card polls the
    reader and goes straight to the next iteration, without a sleep. *)
Lemma C6_idle_counterexample :
  iteration false idle fresh = (Ok tt, fresh, [ev_IsNewCardPresent false])
  /\ sleeps (snd (iteration false idle fresh)) = [].
Proof. split; reflexivity. Qed.

(** C6 (as amended): an iteration sleeps exactly when a card was
    detected and its serial read: then it sleeps once, for 1000 ms, as
    its last step, also after a caught exception; an iteration without
    a card returns with the table as it is and does not sleep. *)
Theorem C6_sleep_follows_detection (W : bool) (e : env) (s : state) :
  match detected e with
  | Some u =>
      sleeps (snd (iteration W e s)) = [1000]
      /\ slept (sleep_1000 W) = Some 1000
      /\ exists pre, snd (iteration W e s) = (pre ++ [sleep_1000 W])%list
  | None =>
      sleeps (snd (iteration W e s)) = []
      /\ fst (fst (iteration W e s)) = Ok tt
      /\ db (snd (fst (iteration W e s))) = db s
  end.
Proof.
  pose proof (iteration_output W e s) as O. cbv zeta in O.
  destruct O as (_ & _ & O & _).
  destruct (detected e) as [u|] eqn:D.
  - split; [exact O|]. split; [apply slept_sleep_1000|].
    unfold iteration. rewrite (loop_body_detected W e s u D).
    destruct (try_block e (uidStr_of u) {| mfrc_uid := u; db := db s |})
      as [[[a|ex] s'] t]; cbn [snd].
    + eexists. rewrite app_assoc. reflexivity.
    + exists ([ev_IsNewCardPresent true; ev_ReadCardSerial true;
               ev_cout ("UID: " ++ uidStr_of u)] ++ t ++
               [ev_cerr ("SQL Exception: " ++ what ex)])%list.
      rewrite <- !app_assoc. reflexivity.
  - split; [exact O|]. unfold iteration.
    destruct (loop_body_undetected W e s D) as (t & E & _). rewrite E. now split.
Qed.

(** C7: a run of [main] calls [connect] once, right after the reader is
    initialised and before the first poll, and never again: no
    iteration connects, with or without a caught exception.  When that
    one [connect] raises, [main] ends there. *)
Theorem C7_one_connection (W : bool) (b : boot) (envs : list env) (s : state) :
  filter is_connect (snd (main W b envs s)) =
    [ev_connect "tcp://127.0.0.1:3307" "root" "root"]
  /\ (exists t',
        snd (main W b envs s) =
          ev_PCD_Init :: ev_connect "tcp://127.0.0.1:3307" "root" "root" :: t'
        /\ filter is_connect t' = [])
  /\ (forall e s0, filter is_connect (snd (iteration W e s0)) = [])
  /\ match connect_throws b with
     | Some msg =>
         main W b envs s =
           (Throw (mkSQLException msg), s,
            [ev_PCD_Init; ev_connect "tcp://127.0.0.1:3307" "root" "root"])
     | None => True
     end.
Proof.
  assert (NC : forall e s0, filter is_connect (snd (iteration W e s0)) = []).
  { intros e s0. pose proof (iteration_output W e s0) as O. cbv zeta in O.
    now destruct O as (_ & _ & _ & O & _). }
  assert (M : exists t',
             snd (main W b envs s) =
               ev_PCD_Init :: ev_connect "tcp://127.0.0.1:3307" "root" "root" :: t'
             /\ filter is_connect t' = []
             /\ match connect_throws b with
                | Some msg =>
                    main W b envs s =
                      (Throw (mkSQLException msg), s,
                       [ev_PCD_Init; ev_connect "tcp://127.0.0.1:3307" "root" "root"])
                | None => True
                end).
  { unfold main, connect, setSchema, bind, emit, ret, throw.
    destruct (connect_throws b) as [m1|]; [now eexists|].
    destruct (setSchema_throws b) as [m2|]; [now eexists|].
    destruct (while_runs W envs s) as (s' & t & E & C & _).
    rewrite E. cbn. eexists. split; [reflexivity|]. split; [|exact Logic.I].
    cbn. now rewrite app_nil_r. }
  destruct M as (t' & E & C & T).
  split; [rewrite E; cbn; now rewrite C|].
  split; [now exists t'|]. split; [exact NC | exact T].
Qed.

(** The rows of the table after an iteration: a row is as before, or
    holds the count 1, or holds the count read from a row of the old
    table plus one, cut to an [int]. *)
Lemma iteration_writes (W : bool) (e : env) (s : state) (x' : row) :
  In x' (users (db (snd (fst (iteration W e s))))) ->
  In x' (users (db s))
  \/ tap_count x' = 1
  \/ exists r, In r (users (db s))
               /\ tap_count x' = int_add (int_wrap (tap_count r)) 1.
Proof.
  rewrite iteration_db.
  destruct (detected e) as [u|]; [|now left].
  destruct (raised e (calls_of (registered (db s) (uidStr_of u)))); [now left|].
  destruct (lookup (db s) (uidStr_of u)) as [r|] eqn:L; intros H.
  - apply update_users_rows in H. destruct H as [[H _] | (_ & H & _)]; [now left|].
    right. right. exists r. split; [apply (lookup_in _ _ _ L) | exact H].
  - unfold insert_users in H. cbn [users] in H. apply in_app_or in H.
    destruct H as [H | [<- | []]]; [now left | right; now left].
Qed.

Lemma iteration_counts (W : bool) (e : env) (s : state) (B : Z) :
  0 <= B < INT_MAX ->
  Forall (fun x => 1 <= tap_count x <= B) (users (db s)) ->
  Forall (fun x => 1 <= tap_count x <= B + 1)
    (users (db (snd (fst (iteration W e s))))).
Proof.
  intros HB F. rewrite Forall_forall in F. apply Forall_forall. intros x' H.
  apply iteration_writes in H. destruct H as [H | [H | (r & H & E)]].
  - specialize (F _ H). cbv beta in F. lia.
  - lia.
  - specialize (F _ H). cbv beta in F. rewrite E, int_incr; unfold INT_MIN; lia.
Qed.

Lemma while_counts (W : bool) (envs : list env) :
  forall (s : state) (B : Z),
    0 <= B -> B + Z.of_nat (List.length envs) <= INT_MAX ->
    Forall (fun x => 1 <= tap_count x <= B) (users (db s)) ->
    Forall (fun x => 1 <= tap_count x <= B + Z.of_nat (List.length envs))
      (users (db (snd (fst (while 1 (loop_body W) envs s))))).
Proof.
  induction envs as [|e envs IH]; intros s B HB HL F.
  - cbn. eapply Forall_impl; [|exact F]. cbv beta. intros; lia.
  - cbn [List.length] in HL |- *. rewrite Nat2Z.inj_succ in HL |- *.
    rewrite while_cons.
    pose proof (iteration_counts W e s B ltac:(lia) F) as F1.
    destruct (iteration_returns W e s) as (s1 & t1 & E). rewrite E in F1 |- *.
    cbn [fst snd] in F1.
    specialize (IH s1 (B + 1) ltac:(lia) ltac:(lia) F1).
    destruct (while 1 (loop_body W) envs s1) as [[r2 s2] t2]. cbn [fst snd] in IH |- *.
    eapply Forall_impl; [|exact IH]. cbv beta. intros; lia.
Qed.

(** C8 as stated fails at the largest [int]: every row has a tap count
    of at least 1 before the tap, the UPDATE then writes -2147483648,
    which is neither at least 1 nor greater than the value read. *)
Lemma C8_overflow_counterexample :
  Forall (fun x => 1 <= tap_count x) (users (db (with_alice INT_MAX)))
  /\ users (db (snd (fst (iteration false (tap 50) (with_alice INT_MAX)))))
     = [ {| UID := "0AFF009C"; tap_count := INT_MIN; username := Some "alice";
            last_scan_time := Some 50 |} ]
  /\ INT_MIN < 1 /\ INT_MIN < INT_MAX.
Proof.
  split; [| split; [| split]].
  - repeat constructor. cbn. unfold INT_MAX. lia.
  - vm_compute. reflexivity.
  - reflexivity.
  - reflexivity.
Qed.

(** C8 (as amended): when every row has a tap count of at least 1 and
    low enough for the taps to come to fit an [int], every row has a
    tap count of at least 1 after any number of iterations, whatever
    the reader and the driver do.  For after an iteration a row is as
    it was before, or holds the count 1 (the INSERT), or holds the
    count read from a row of the table plus 1 cut to an [int] (the
    UPDATE), which is greater than the count read when that is an
    [int] below [INT_MAX]. *)
Theorem C8_tap_count_stays_positive (W : bool) :
  (forall envs s,
      Z.of_nat (List.length envs) < INT_MAX ->
      Forall (fun x => 1 <= tap_count x <= INT_MAX - Z.of_nat (List.length envs))
        (users (db s)) ->
      Forall (fun x => 1 <= tap_count x <= INT_MAX)
        (users (db (snd (fst (while 1 (loop_body W) envs s))))))
  /\ (forall e s x',
         In x' (users (db (snd (fst (iteration W e s))))) ->
         In x' (users (db s))
         \/ tap_count x' = 1
         \/ exists r,
              In r (users (db s))
              /\ tap_count x' = int_add (int_wrap (tap_count r)) 1
              /\ (INT_MIN <= tap_count r < INT_MAX ->
                  tap_count x' = tap_count r + 1 /\ tap_count r < tap_count x')).
Proof.
  split.
  - intros envs s HL F.
    pose proof (while_counts W envs s (INT_MAX - Z.of_nat (List.length envs))
                  ltac:(lia) ltac:(lia) F) as G.
    eapply Forall_impl; [|exact G]. cbv beta. intros; lia.
  - intros e s x' H. apply iteration_writes in H.
    destruct H as [H | [H | (r & H & E)]]; [now left | right; now left |].
    right. right. exists r. split; [exact H|]. split; [exact E|].
    intros B. rewrite E, (int_incr _ B). lia.
Qed.

Lemma C8_tap_count_stays_positive_witness :
  Forall (fun x => 1 <= tap_count x <= INT_MAX)
    (users (db (snd (fst (while 1 (loop_body false) [tap 50; idle; tap 60]
                            (with_alice 4)))))).
Proof.
  apply (proj1 (C8_tap_count_stays_positive false) [tap 50; idle; tap 60] (with_alice 4)).
  - unfold INT_MAX. simpl. lia.
  - repeat constructor; unfold INT_MAX; simpl; lia.
Defined.

(** C9: on a tap of a UID for which the SELECT returns no row, no line
    printed is a greeting, whatever the driver does; when no call
    raises, the lines printed are the UID line and
    "UID inserted into database.", and the next tap of that card that
    goes through prints a greeting, "Goodbye" with the name the schema
    gave the new row, for the count 2. *)
Theorem C9_first_tap_no_greeting (W : bool) (e : env) (s : state) (u : Uid) :
  detected e = Some u ->
  lookup (db s) (uidStr_of u) = None ->
  existsb is_greeting (stdout (snd (iteration W e s))) = false
  /\ (raised e (calls_of false) = None ->
      stdout (snd (iteration W e s)) =
        ["UID: " ++ uidStr_of u; "UID inserted into database."]
      /\ forall e2,
           detected e2 = Some u ->
           raised e2 (calls_of true) = None ->
           stdout (snd (iteration W e2 (snd (fst (iteration W e s))))) =
             ["UID: " ++ uidStr_of u;
              "Goodbye " ++ match username_default (db s) with
                            | Some n => n
                            | None => ""
                            end]
           /\ is_greeting ("Goodbye " ++ match username_default (db s) with
                                         | Some n => n
                                         | None => ""
                                         end) = true).
Proof.
  intros D L.
  pose proof (iteration_output W e s) as O. cbv zeta in O.
  destruct O as (O & _). rewrite D in O.
  unfold registered in O. rewrite L in O.
  split.
  - rewrite O. destruct (raised e (calls_of false)); reflexivity.
  - intros R. rewrite R in O. split; [exact O|].
    intros e2 D2 R2.
    rewrite (iteration_absent W e s u D L R). cbn [fst snd].
    rewrite (iteration_found W e2
               {| mfrc_uid := u; db := insert_users (db s) (uidStr_of u) (NOW e) |}
               u _ D2 (lookup_insert _ _ (NOW e) L) R2).
    destruct W; split; reflexivity.
Qed.

Lemma C9_first_tap_no_greeting_witness :
  stdout (snd (iteration false (tap 50) fresh)) =
    ["UID: 0AFF009C"; "UID inserted into database."]
  /\ stdout (snd (iteration false (tap 60) (snd (fst (iteration false (tap 50) fresh))))) =
    ["UID: 0AFF009C"; "Goodbye "].
Proof.
  destruct (C9_first_tap_no_greeting false (tap 50) fresh card) as [_ H].
  - reflexivity.
  - reflexivity.
  - destruct (H eq_refl) as [H1 H2]. split; [exact H1|].
    destruct (H2 (tap 60) eq_refl eq_refl) as [H3 _]. exact H3.
Defined.

(** C10: in the iteration of a detected card, when a driver call on the
    path raises (the UPDATE, the INSERT, or a call before them), the
    only line on standard output is the UID line printed before the
    [try] block, and standard error has the exception line; when none
    raises, the greeting or "UID inserted into database." comes right
    after the UPDATE or INSERT was run, and standard error is empty. *)
Theorem C10_message_only_after_write (W : bool) (e : env) (s : state) (u : Uid) :
  detected e = Some u ->
  match raised e (calls_of (registered (db s) (uidStr_of u))) with
  | Some msg =>
      stdout (snd (iteration W e s)) = ["UID: " ++ uidStr_of u]
      /\ stderr (snd (iteration W e s)) = ["SQL Exception: " ++ msg]
      /\ existsb is_greeting (stdout (snd (iteration W e s))) = false
  | None =>
      exists pre q args line,
        snd (iteration W e s) =
          (pre ++ [ev_executeUpdate q args; ev_cout line; sleep_1000 W])%list
        /\ stdout pre = ["UID: " ++ uidStr_of u]
        /\ stderr (snd (iteration W e s)) = []
  end.
Proof.
  intros D.
  pose proof (iteration_output W e s) as O. cbv zeta in O.
  destruct O as (O1 & O2 & _). rewrite D in O1, O2.
  destruct (raised e (calls_of (registered (db s) (uidStr_of u)))) as [msg|] eqn:R.
  - rewrite O1, O2. now repeat split.
  - unfold registered in R.
    destruct (lookup (db s) (uidStr_of u)) as [r|] eqn:L.
    + rewrite (iteration_found W e s u r D L R). cbn [snd].
      exists [ev_IsNewCardPresent true; ev_ReadCardSerial true;
              ev_cout ("UID: " ++ uidStr_of u);
              ev_executeQuery SELECT_users [(1%nat, PString (uidStr_of u))]].
      eexists _, _, _. split; [reflexivity|]. split; [reflexivity|].
      destruct W; reflexivity.
    + rewrite (iteration_absent W e s u D L R). cbn [snd].
      exists [ev_IsNewCardPresent true; ev_ReadCardSerial true;
              ev_cout ("UID: " ++ uidStr_of u);
              ev_executeQuery SELECT_users [(1%nat, PString (uidStr_of u))]].
      eexists _, _, _. split; [reflexivity|]. split; [reflexivity|].
      destruct W; reflexivity.
Qed.

Lemma C10_message_only_after_write_witness :
  (stdout (snd (iteration false tap_update_lost (with_alice 4))) = ["UID: 0AFF009C"]
   /\ stderr (snd (iteration false tap_update_lost (with_alice 4))) =
        ["SQL Exception: Lost connection to MySQL server"])
  /\ (stdout (snd (iteration false tap_insert_lost fresh)) = ["UID: 0AFF009C"]
      /\ stderr (snd (iteration false tap_insert_lost fresh)) =
           ["SQL Exception: Lost connection to MySQL server"]).
Proof.
  split.
  - pose proof (C10_message_only_after_write false tap_update_lost (with_alice 4) card
                  eq_refl) as H.
    destruct H as (H1 & H2 & _). split; [exact H1 | exact H2].
  - pose proof (C10_message_only_after_write false tap_insert_lost fresh card
                  eq_refl) as H.
    destruct H as (H1 & H2 & _). split; [exact H1 | exact H2].
Defined.

(** * Further properties of [delay] and [main] *)

(** ** [delay] *)



(** ** The UID string as a key *)

Lemma decode_byte_hex (b : byte) (rest : string) :
  decode_hex (byte_hex b ++ rest) = b :: decode_hex rest.
Proof. destruct b; reflexivity. Qed.

Lemma decode_concat_hex (l : list byte) :
  decode_hex (concat_strings (map byte_hex l)) = l.
Proof.
  induction l as [|b l IH]; [reflexivity|].
  cbn [map concat_strings]. now rewrite decode_byte_hex, IH.
Qed.

(** X2: two cards get the same UID string exactly when they have the
    same UID bytes (the same number of bytes and the same bytes in
    order): no two different UIDs share a key of the table. *)
Theorem X2_uid_string_injective (u1 u2 : Uid) :
  uidStr_of u1 = uidStr_of u2 <-> uid_bytes u1 = uid_bytes u2.
Proof.
  rewrite !uidStr_of_bytes. split; intros E.
  - rewrite <- (decode_concat_hex (uid_bytes u1)), <- (decode_concat_hex (uid_bytes u2)).
    now rewrite E.
  - now rewrite E.
Qed.

(** ** Start-up *)

(** X3: the start of [main] is not guarded: when [connect] raises,
    [main] ends with that exception before [setSchema]; when
    [setSchema] raises, it ends with that one; in both cases the reader
    is never polled, no statement is run and nothing is printed.
    Otherwise [main] reaches the loop, polls once per input and does
    not return. *)
Theorem X3_startup_failures_end_main (W : bool) (b : boot) (envs : list env) (s : state) :
  match connect_throws b, setSchema_throws b with
  | Some msg, _ =>
      main W b envs s =
        (Throw (mkSQLException msg), s,
         [ev_PCD_Init; ev_connect "tcp://127.0.0.1:3307" "root" "root"])
  | None, Some msg =>
      main W b envs s =
        (Throw (mkSQLException msg), s,
         [ev_PCD_Init; ev_connect "tcp://127.0.0.1:3307" "root" "root";
          ev_setSchema "rfid_database"])
  | None, None =>
      exists s' t,
        main W b envs s =
          (Ok None, s',
           ev_PCD_Init :: ev_connect "tcp://127.0.0.1:3307" "root" "root" ::
           ev_setSchema "rfid_database" :: t)
        /\ List.length (filter is_poll t) = List.length envs
  end.
Proof.
  unfold main, connect, setSchema, bind, emit, ret, throw.
  destruct (connect_throws b) as [m1|]; [reflexivity|].
  destruct (setSchema_throws b) as [m2|]; [reflexivity|].
  destruct (while_runs W envs s) as (s' & t & E & _ & P).
  rewrite E. exists s', t. cbn. rewrite app_nil_r. now split.
Qed.

(** ** The rows an iteration leaves alone *)

Lemma lookup_none_notin (d : database) (uid : string) :
  lookup d uid = None -> ~ In uid (map UID (users d)).
Proof.
  unfold lookup, select_users. intros H I.
  apply in_map_iff in I. destruct I as (x & E & I).
  assert (F : In x (filter (fun r => String.eqb (UID r) uid) (users d))).
  { apply filter_In. split; [exact I|]. now apply String.eqb_eq. }
  destruct (filter (fun r => String.eqb (UID r) uid) (users d)); [destruct F | discriminate].
Qed.

Lemma update_users_UIDs (d : database) (n : Z) (uid : string) (now : Z) :
  map UID (users (update_users d n uid now)) = map UID (users d)
  /\ map username (users (update_users d n uid now)) = map username (users d).
Proof.
  unfold update_users. cbn [users]. rewrite !map_map.
  split; apply map_ext; intros x; destruct (String.eqb (UID x) uid); reflexivity.
Qed.

Lemma update_users_other (d : database) (n : Z) (uid : string) (now : Z) (i : nat) (x : row) :
  nth_error (users d) i = Some x -> UID x <> uid ->
  nth_error (users (update_users d n uid now)) i = Some x.
Proof.
  intros H N. unfold update_users. cbn [users].
  rewrite nth_error_map, H. cbn.
  apply String.eqb_neq in N. now rewrite N.
Qed.

Lemma NoDup_snoc (l : list string) (x : string) :
  NoDup l -> ~ In x l -> NoDup (l ++ [x]).
Proof.
  induction l as [|a l IH]; intros N I.
  - cbn. constructor; [intros [] | constructor].
  - cbn. inversion N as [|? ? Ha Nl]; subst. constructor.
    + intros H. apply in_app_or in H. destruct H as [H | [<- | []]].
      * contradiction.
      * apply I. now left.
    + apply IH; [exact Nl|]. intros H. apply I. now right.
Qed.

(** The UIDs of the table after an iteration: those before, in order,
    and at the end the UID of the card read when it was not there. *)
Lemma iteration_UIDs (W : bool) (e : env) (s : state) :
  map UID (users (db (snd (fst (iteration W e s))))) = map UID (users (db s))
  \/ exists uid,
       ~ In uid (map UID (users (db s)))
       /\ map UID (users (db (snd (fst (iteration W e s)))))
          = (map UID (users (db s)) ++ [uid])%list.
Proof.
  rewrite iteration_db.
  destruct (detected e) as [u|]; [|now left].
  destruct (raised e (calls_of (registered (db s) (uidStr_of u)))); [now left|].
  destruct (lookup (db s) (uidStr_of u)) as [r|] eqn:L.
  - left. apply update_users_UIDs.
  - right. exists (uidStr_of u). split; [now apply lookup_none_notin|].
    unfold insert_users. cbn [users]. now rewrite map_app.
Qed.

Lemma run_cons (W : bool) (e : env) (envs : list env) (s : state) :
  exists s1 t1,
    iteration W e s = (Ok tt, s1, t1)
    /\ fst (run W (e :: envs) s) = fst (run W envs s1)
    /\ snd (run W (e :: envs) s) = (t1 ++ snd (run W envs s1))%list.
Proof.
  destruct (iteration_returns W e s) as (s1 & t1 & E).
  exists s1, t1. split; [exact E|].
  unfold run. rewrite while_cons, E.
  destruct (while 1 (loop_body W) envs s1) as [[r2 s2] t2]. now split.
Qed.

(** X4: when the UIDs of the rows are pairwise different, they still
    are after any number of iterations, whatever the reader and the
    driver do: the program never makes a second row for a UID. *)
Theorem X4_uids_stay_unique (W : bool) (envs : list env) (s : state) :
  NoDup (map UID (users (db s))) ->
  NoDup (map UID (users (db (snd (fst (run W envs s)))))).
Proof.
  revert s. induction envs as [|e envs IH]; intros s N; [exact N|].
  destruct (run_cons W e envs s) as (s1 & t1 & E & F & _).
  rewrite F. apply IH.
  pose proof (iteration_UIDs W e s) as U. rewrite E in U. cbn [fst snd] in U.
  destruct U as [U | (uid & I & U)]; rewrite U; [exact N|].
  now apply NoDup_snoc.
Qed.

Lemma X4_uids_stay_unique_witness :
  NoDup (map UID (users (db (snd (fst (run false [tap 1; tap_b 2; tap 3; unread; tap_b 4]
                                         (with_alice 4))))))).
Proof.
  apply (X4_uids_stay_unique false [tap 1; tap_b 2; tap 3; unread; tap_b 4] (with_alice 4)).
  cbn. constructor; [intros [] | constructor].
Defined.

(** X5: an iteration never deletes or moves a row and never changes the
    UID or the username of one: the UID and username columns afterwards
    are those before, followed by at most one new row, which is there
    only for a card read whose UID had no row and holds that UID and
    the count 1.  A row whose UID is not that of the card read is
    afterwards where it was, with every column as it was. *)
Theorem X5_other_rows_untouched (W : bool) (e : env) (s : state) :
  exists added,
    (added = []
     \/ exists u,
          detected e = Some u /\ lookup (db s) (uidStr_of u) = None
          /\ added = [ {| UID := uidStr_of u; tap_count := 1;
                          username := username_default (db s);
                          last_scan_time := Some (NOW e) |} ])
    /\ map UID (users (db (snd (fst (iteration W e s)))))
       = (map UID (users (db s)) ++ map UID added)%list
    /\ map username (users (db (snd (fst (iteration W e s)))))
       = (map username (users (db s)) ++ map username added)%list
    /\ forall i x,
         nth_error (users (db s)) i = Some x ->
         (forall u, detected e = Some u -> UID x <> uidStr_of u) ->
         nth_error (users (db (snd (fst (iteration W e s))))) i = Some x.
Proof.
  rewrite iteration_db.
  destruct (detected e) as [u|] eqn:D.
  2:{ exists []. rewrite !app_nil_r. split; [now left|]. now repeat split. }
  destruct (raised e (calls_of (registered (db s) (uidStr_of u)))).
  { exists []. rewrite !app_nil_r. split; [now left|]. now repeat split. }
  destruct (lookup (db s) (uidStr_of u)) as [r|] eqn:L.
  - exists []. rewrite !app_nil_r. split; [now left|].
    split; [apply update_users_UIDs|]. split; [apply update_users_UIDs|].
    intros i x H N. apply update_users_other; [exact H | now apply N].
  - eexists. split; [right; exists u; split; [reflexivity | split; [exact L | reflexivity]]|].
    unfold insert_users. cbn [users]. rewrite !map_app.
    split; [reflexivity|]. split; [reflexivity|].
    intros i x H _. rewrite nth_error_app1; [exact H|].
    apply nth_error_Some. congruence.
Qed.

(** ** Counting taps *)

Lemma lookup_update_other (d : database) (n : Z) (uid' uid : string) (now : Z) :
  uid' <> uid ->
  lookup (update_users d n uid' now) uid = lookup d uid.
Proof.
  intros N. unfold lookup, select_users, update_users. cbn [users].
  induction (users d) as [|x l IH]; [reflexivity|].
  cbn [map filter].
  destruct (String.eqb (UID x) uid') eqn:E'; cbn [UID].
  - apply String.eqb_eq in E'.
    assert (F : String.eqb (UID x) uid = false)
      by (apply String.eqb_neq; congruence).
    rewrite F. exact IH.
  - destruct (String.eqb (UID x) uid); [reflexivity | exact IH].
Qed.

Lemma lookup_insert_other (d : database) (uid' uid : string) (now : Z) :
  uid' <> uid ->
  lookup (insert_users d uid' now) uid = lookup d uid.
Proof.
  intros N. unfold lookup, select_users, insert_users. cbn [users].
  rewrite filter_app. cbn [filter UID].
  apply String.eqb_neq in N. rewrite N. now rewrite app_nil_r.
Qed.

Lemma raised_quiet (e : env) (cs : list call) :
  (forall c, throws e c = None) -> raised e cs = None.
Proof.
  intros Q. induction cs as [|c cs IH]; [reflexivity|].
  cbn. now rewrite Q.
Qed.

(** The count stored for [uid] after an iteration that does not read a
    card of that UID: as before. *)
Lemma iteration_count_other (W : bool) (e : env) (s : state) (uid : string) :
  is_tap_of uid e = false ->
  lookup (db (snd (fst (iteration W e s)))) uid = lookup (db s) uid.
Proof.
  unfold is_tap_of. intros T. rewrite iteration_db.
  destruct (detected e) as [u|]; [|reflexivity].
  apply String.eqb_neq in T.
  destruct (raised e (calls_of (registered (db s) (uidStr_of u)))); [reflexivity|].
  destruct (lookup (db s) (uidStr_of u)) as [r|].
  - now apply lookup_update_other.
  - now apply lookup_insert_other.
Qed.

(** The count stored for [uid] after an undisturbed tap of a card of
    that UID: one more, as long as that fits an [int]. *)
Lemma iteration_count_tap (W : bool) (e : env) (s : state) (uid : string) :
  is_tap_of uid e = true ->
  (forall c, throws e c = None) ->
  INT_MIN <= stored_count (db s) uid < INT_MAX ->
  stored_count (db (snd (fst (iteration W e s)))) uid = stored_count (db s) uid + 1.
Proof.
  unfold is_tap_of, stored_count. intros T Q B.
  destruct (detected e) as [u|] eqn:D; [|discriminate].
  apply String.eqb_eq in T. subst uid.
  destruct (lookup (db s) (uidStr_of u)) as [r|] eqn:L.
  - rewrite (iteration_found W e s u r D L (raised_quiet e _ Q)). cbn [fst snd db].
    rewrite (lookup_update _ _ _ _ _ L). cbn [tap_count]. now apply int_incr.
  - rewrite (iteration_absent W e s u D L (raised_quiet e _ Q)). cbn [fst snd db].
    now rewrite (lookup_insert _ _ _ L).
Qed.

(** X6: the count stored for a UID is the number of times a card of
    that UID was tapped: when the taps of that card meet no driver
    failure, then after any run the stored count is the one before plus
    the number of those taps, whatever happened to other cards in
    between (their taps, failed reads, driver failures), as long as the
    sum fits an [int].  A UID without a row counts as 0, so the first
    tap stores 1. *)
Theorem X6_count_is_number_of_taps
  (W : bool) (uid : string) (envs : list env) (s : state) :
  Forall (fun e => is_tap_of uid e = true -> forall c, throws e c = None) envs ->
  INT_MIN <= stored_count (db s) uid ->
  stored_count (db s) uid + Z.of_nat (taps_of uid envs) <= INT_MAX ->
  stored_count (db (snd (fst (run W envs s)))) uid
  = stored_count (db s) uid + Z.of_nat (taps_of uid envs).
Proof.
  revert s. induction envs as [|e envs IH]; intros s F B1 B2.
  - cbn. lia.
  - inversion F as [|? ? Fe Fenvs]; subst.
    destruct (run_cons W e envs s) as (s1 & t1 & E & R & _).
    rewrite R. unfold taps_of in B2 |- *. cbn [filter] in B2 |- *.
    assert (S1 : s1 = snd (fst (iteration W e s))) by now rewrite E.
    destruct (is_tap_of uid e) eqn:T.
    + cbn [List.length] in B2 |- *. rewrite Nat2Z.inj_succ in B2 |- *.
      assert (C : stored_count (db s1) uid = stored_count (db s) uid + 1).
      { rewrite S1. apply iteration_count_tap; [exact T | now apply Fe | lia]. }
      fold (taps_of uid envs) in B2 |- *.
      rewrite (IH s1 Fenvs); lia.
    + assert (C : stored_count (db s1) uid = stored_count (db s) uid).
      { unfold stored_count. rewrite S1. now rewrite iteration_count_other. }
      fold (taps_of uid envs) in B2 |- *.
      rewrite (IH s1 Fenvs); lia.
Qed.

Lemma X6_count_is_number_of_taps_witness :
  stored_count
    (db (snd (fst (run false [tap 1; tap_b 2; idle; tap 3; tap_update_lost; tap_b 4; tap 5]
                     fresh))))
    (uidStr_of card_b) = 2.
Proof.
  rewrite (X6_count_is_number_of_taps false (uidStr_of card_b)
             [tap 1; tap_b 2; idle; tap 3; tap_update_lost; tap_b 4; tap 5] fresh).
  - reflexivity.
  - repeat (apply Forall_cons;
            [first [ intros _ c; reflexivity
                   | intros H; vm_compute in H; discriminate ] |]).
    apply Forall_nil.
  - vm_compute. discriminate.
  - vm_compute. discriminate.
Defined.

(** X7: a run sleeps once, for 1000 ms, for every iteration in which a
    card was read, in that order, and not at all for the others,
    whatever the driver does: the time slept over a run is 1000 ms
    times the number of cards handled. *)
Theorem X7_one_sleep_per_card (W : bool) (envs : list env) (s : state) :
  sleeps (snd (run W envs s)) = repeat 1000 (List.length (filter is_handled envs)).
Proof.
  revert s. induction envs as [|e envs IH]; intros s; [reflexivity|].
  destruct (run_cons W e envs s) as (s1 & t1 & E & _ & T).
  rewrite T, sleeps_app, IH.
  pose proof (iteration_output W e s) as O. cbv zeta in O.
  destruct O as (_ & _ & O & _). rewrite E in O. cbn [snd] in O. rewrite O.
  cbn [filter]. unfold is_handled at 2.
  destruct (detected e); reflexivity.
Qed.

(** ** Greetings in a row *)

Lemma next_count_parity (n : Z) :
  Z.even (int_add (int_wrap n) 1) = negb (Z.even n).
Proof.
  unfold int_add.
  now rewrite int_wrap_even, Z.add_1_r, Z.even_succ, <- Z.negb_even, int_wrap_even.
Qed.

(** X8: two taps of a registered card in a row, both undisturbed, are
    greeted differently, with the same name: "Hello" then "Goodbye", or
    "Goodbye" then "Hello"; this holds for every stored count, also at
    the end of the [int] range. *)
Theorem X8_greetings_alternate
  (W : bool) (e1 e2 : env) (s : state) (u : Uid) (r : row) :
  detected e1 = Some u ->
  detected e2 = Some u ->
  lookup (db s) (uidStr_of u) = Some r ->
  raised e1 (calls_of true) = None ->
  raised e2 (calls_of true) = None ->
  exists g1 g2,
    stdout (snd (iteration W e1 s)) = ["UID: " ++ uidStr_of u; g1 ++ name_of r]
    /\ stdout (snd (iteration W e2 (snd (fst (iteration W e1 s)))))
       = ["UID: " ++ uidStr_of u; g2 ++ name_of r]
    /\ ((g1 = "Hello " /\ g2 = "Goodbye ") \/ (g1 = "Goodbye " /\ g2 = "Hello ")).
Proof.
  intros D1 D2 L R1 R2.
  rewrite (iteration_found W e1 s u r D1 L R1). cbn [fst snd].
  set (n := int_add (int_wrap (tap_count r)) 1).
  rewrite (iteration_found W e2
             {| mfrc_uid := u; db := update_users (db s) n (uidStr_of u) (NOW e1) |}
             u _ D2 (lookup_update _ _ _ n (NOW e1) L) R2).
  cbn [snd tap_count]. rewrite next_count_parity.
  unfold name_of at 3. cbn [username]. fold (name_of r).
  destruct (Z.even n); cbn [negb]; eexists _, _.
  - split; [destruct W; reflexivity|]. split; [destruct W; reflexivity|]. now right.
  - split; [destruct W; reflexivity|]. split; [destruct W; reflexivity|]. now left.
Qed.

Lemma X8_greetings_alternate_witness :
  exists g1 g2,
    stdout (snd (iteration false (tap 1) (with_alice INT_MAX)))
      = ["UID: " ++ uidStr_of card; g1 ++ "alice"]
    /\ stdout (snd (iteration false (tap 2)
                      (snd (fst (iteration false (tap 1) (with_alice INT_MAX))))))
       = ["UID: " ++ uidStr_of card; g2 ++ "alice"]
    /\ ((g1 = "Hello " /\ g2 = "Goodbye ") \/ (g1 = "Goodbye " /\ g2 = "Hello ")).
Proof.
  apply (X8_greetings_alternate false (tap 1) (tap 2) (with_alice INT_MAX) card
           (alice INT_MAX)); reflexivity.
Defined.

(** ** The statements of an iteration *)

Lemma statements_app (a b : list event) :
  statements (a ++ b) = (statements a ++ statements b)%list.
Proof. apply flat_map_app. Qed.

Ltac pick_shape :=
  cbn;
  first [ left; reflexivity
        | right; left; reflexivity
        | right; right; left; split; reflexivity
        | right; right; right; split; reflexivity ].

Ltac split_call c :=
  destruct (throws _ c); cbn; [pick_shape |].

(** The statements the [try] block runs, whatever the driver does:
    none, or the SELECT alone, or the SELECT and then the one write
    that fits what the SELECT found. *)
Lemma try_block_statements (e : env) (uid : string) (s : state) :
  statements (snd (try_block e uid s)) = []
  \/ statements (snd (try_block e uid s)) = [SELECT_users]
  \/ (statements (snd (try_block e uid s)) = [SELECT_users; UPDATE_users]
      /\ registered (db s) uid = true)
  \/ (statements (snd (try_block e uid s)) = [SELECT_users; INSERT_users]
      /\ registered (db s) uid = false).
Proof.
  unfold registered, lookup. unfold_block.
  destruct (select_users (db s) uid) as [|r0 rest] eqn:Q; cbn.
  - split_call select_prepareStatement. split_call select_setString.
    split_call select_executeQuery. split_call res_next.
    rewrite Q. cbn.
    split_call insert_prepareStatement. split_call insert_setString.
    split_call insert_executeUpdate. pick_shape.
  - split_call select_prepareStatement. split_call select_setString.
    split_call select_executeQuery. split_call res_next.
    rewrite Q. cbn.
    split_call res_getString. split_call res_getInt.
    split_call update_prepareStatement. split_call update_setInt.
    split_call update_setString. split_call update_executeUpdate.
    destruct (int_rem (int_add (int_wrap (tap_count r0)) 1) 2 =? 0); pick_shape.
Qed.

(** X9: the statements of one iteration, whatever the reader and the
    driver do.  Without a card read there is none, and nothing is
    printed.  With a card read there are at most two: the SELECT comes
    first, an UPDATE follows only when the SELECT found a row, an
    INSERT only when it found none, and never both. *)
Theorem X9_statements_of_an_iteration (W : bool) (e : env) (s : state) :
  match detected e with
  | None =>
      statements (snd (iteration W e s)) = []
      /\ stdout (snd (iteration W e s)) = []
      /\ stderr (snd (iteration W e s)) = []
  | Some u =>
      statements (snd (iteration W e s)) = []
      \/ statements (snd (iteration W e s)) = [SELECT_users]
      \/ (statements (snd (iteration W e s)) = [SELECT_users; UPDATE_users]
          /\ registered (db s) (uidStr_of u) = true)
      \/ (statements (snd (iteration W e s)) = [SELECT_users; INSERT_users]
          /\ registered (db s) (uidStr_of u) = false)
  end.
Proof.
  destruct (detected e) as [u|] eqn:D.
  - assert (E : statements (snd (iteration W e s))
                = statements (snd (try_block e (uidStr_of u)
                                     {| mfrc_uid := u; db := db s |}))).
    { unfold iteration. rewrite (loop_body_detected W e s u D).
      destruct (try_block e (uidStr_of u) {| mfrc_uid := u; db := db s |})
        as [[[a|ex] s'] t]; cbn [snd]; rewrite !statements_app;
        destruct W; cbn; now rewrite app_nil_r. }
    rewrite E.
    apply (try_block_statements e (uidStr_of u) {| mfrc_uid := u; db := db s |}).
  - destruct (detected_none e D) as [P | [P R]].
    + unfold iteration. rewrite (loop_body_idle W e s P). now repeat split.
    + unfold iteration. rewrite (loop_body_unread W e s P R). now repeat split.
Qed.

(** ** Registered cards stay registered *)

Lemma registered_iff_in (d : database) (uid : string) :
  registered d uid = true <-> In uid (map UID (users d)).
Proof.
  unfold registered. split.
  - destruct (lookup d uid) as [r|] eqn:L; [|discriminate]. intros _.
    destruct (lookup_in d uid r L) as [I U]. apply in_map_iff. now exists r.
  - intros I. destruct (lookup d uid) as [r|] eqn:L; [reflexivity|].
    now apply lookup_none_notin in L.
Qed.

(** X10: a card that has a row keeps having one: after any run,
    whatever the reader and the driver do, a UID that was in the table
    is still in it, so its taps are counted and never inserted again. *)
Theorem X10_registered_stays_registered
  (W : bool) (uid : string) (envs : list env) (s : state) :
  registered (db s) uid = true ->
  registered (db (snd (fst (run W envs s)))) uid = true.
Proof.
  revert s. induction envs as [|e envs IH]; intros s R; [exact R|].
  destruct (run_cons W e envs s) as (s1 & t1 & E & F & _).
  rewrite F. apply IH.
  apply registered_iff_in. apply registered_iff_in in R.
  pose proof (iteration_UIDs W e s) as U. rewrite E in U. cbn [fst snd] in U.
  destruct U as [U | (x & _ & U)]; rewrite U; [exact R|].
  apply in_or_app. now left.
Qed.

Lemma X10_registered_stays_registered_witness :
  registered
    (db (snd (fst (run false [tap_b 1; tap_update_lost; unread; tap 2] (with_alice 4)))))
    "0AFF009C" = true.
Proof.
  apply (X10_registered_stays_registered false "0AFF009C"
           [tap_b 1; tap_update_lost; unread; tap 2] (with_alice 4)).
  reflexivity.
Defined.

(** ** The calls to the reader *)

Lemma block_events_no_reads (t : list event) :
  forallb is_block_event t = true -> serial_reads t = [].
Proof.
  induction t as [|ev t IH]; [reflexivity|].
  cbn [forallb]. intros H. apply andb_prop in H. destruct H as [H1 H2].
  destruct ev; try discriminate; cbn; now apply IH.
Qed.

Lemma serial_reads_app (a b : list event) :
  serial_reads (a ++ b) = (serial_reads a ++ serial_reads b)%list.
Proof. apply flat_map_app. Qed.

(** X11: every iteration starts by asking the reader for a new card,
    and asks for the serial only when there is one: with no card in the
    field [PICC_ReadCardSerial] is not called and the iteration is
    over; with a card it is called exactly once, right after the poll
    and before anything is printed or sent to the database. *)
Theorem X11_serial_read_only_with_card (W : bool) (e : env) (s : state) :
  exists rest,
    snd (iteration W e s) = ev_IsNewCardPresent (card_present e) :: rest
    /\ if card_present e
       then exists rest',
              rest = ev_ReadCardSerial
                       (match card_serial e with Some _ => true | None => false end)
                     :: rest'
              /\ serial_reads rest' = []
       else rest = [].
Proof.
  destruct (detected e) as [u|] eqn:D.
  - assert (P : card_present e = true /\ card_serial e = Some u).
    { unfold detected in D. destruct (card_present e); [now split | discriminate]. }
    destruct P as [P R]. rewrite P, R.
    unfold iteration. rewrite (loop_body_detected W e s u D).
    pose proof (try_block_cases e (uidStr_of u) {| mfrc_uid := u; db := db s |}) as C.
    destruct (raised e (calls_of (registered (db {| mfrc_uid := u; db := db s |})
                                    (uidStr_of u)))).
    + destruct C as (t & E & _ & B & _). rewrite E. cbn [snd].
      eexists. split; [reflexivity|]. eexists. split; [reflexivity|].
      cbn. rewrite !serial_reads_app, (block_events_no_reads t B).
      destruct W; reflexivity.
    + destruct C as (s' & t & E & _ & B). rewrite E. cbn [snd].
      eexists. split; [reflexivity|]. eexists. split; [reflexivity|].
      cbn. rewrite !serial_reads_app, (block_events_no_reads t B).
      destruct W; reflexivity.
  - destruct (detected_none e D) as [P | [P R]].
    + unfold iteration. rewrite (loop_body_idle W e s P), P.
      eexists. split; reflexivity.
    + unfold iteration. rewrite (loop_body_unread W e s P R), P, R.
      eexists. split; [reflexivity|]. now exists [].
Qed.
